(** * network-monitor: the reachability probe, the transition detector of
    [check] and the Telegram command loop of [runBot] (main.go).

    The program is embedded shallowly.  Every call that leaves the process
    (the HTTP client, the [ping] command, the wall clock, the Telegram
    API) is answered by an explicit environment record, and every
    observable action (a log line, a form posted to Telegram, a pause, a
    goroutine started) is appended to a trace of events.  The mutex [mu]
    of [Monitor] serialises the body of [check]; one call of the model's
    [check] is one such critical section. *)

From Stdlib Require Import ZArith List String Ascii Bool Lia Sorted.
Import ListNotations.

Local Open Scope string_scope.
Local Open Scope Z_scope.

(** ** The pieces of Go's runtime and standard library the program uses *)

Module Go.

(** [int] and [int64] are 64-bit two's complement integers. *)
Definition minInt64 : Z := - 2 ^ 63.
Definition maxInt64 : Z := 2 ^ 63 - 1.

Definition wrap64 (z : Z) : Z := (z + 2 ^ 63) mod 2 ^ 64 - 2 ^ 63.

(** [time.Time] is an instant; the model keeps the number of
    nanoseconds since Go's zero instant (January 1, year 1, UTC), so the
    zero value of the struct is [0].  The monotonic clock reading that
    [time.Now] attaches to an instant is left out. *)
Definition Time : Type := Z.

Definition zeroTime : Time := 0.

Definition IsZero (t : Time) : bool := t =? 0.

(** [time.Duration] is an [int64] count of nanoseconds. *)
Definition Duration : Type := Z.

Definition minDuration : Duration := minInt64.
Definition maxDuration : Duration := maxInt64.
Definition Second : Duration := 1000000000.

(** [t.Sub(u)]: the difference, saturated to the range of [Duration]. *)
Definition Sub (t u : Time) : Duration :=
  let d := t - u in
  if d <? minDuration then minDuration
  else if maxDuration <? d then maxDuration
  else d.

(** [d.Round(m)]: to the nearest multiple of [m], halves away from zero.
    Go's [%] truncates toward zero, which is [Z.rem]. *)
Definition Round (d m : Duration) : Duration :=
  if m <=? 0 then d
  else
    let r := Z.rem d m in
    if d <? 0 then
      let r := - r in
      if r + r <? m then d + r
      else
        let d1 := wrap64 (d - m + r) in
        if d1 <? d then d1 else minDuration
    else if r + r <? m then d - r
    else
      let d1 := wrap64 (d + m - r) in
      if d <? d1 then d1 else maxDuration.

Definition digit (v : Z) : ascii := ascii_of_nat (Z.to_nat (48 + v mod 10)).

(** The digit loops of [fmtInt] write a buffer from its right end; the
    model prepends to the text already written.  A [uint64] has at most
    twenty decimal digits, which bounds the loop. *)
Fixpoint fmtDigits (fuel : nat) (buf : string) (v : Z) : string :=
  match fuel with
  | O => buf
  | S fuel' =>
      if 0 <? v then fmtDigits fuel' (String (digit v) buf) (v / 10)
      else buf
  end.

Definition fmtInt (buf : string) (v : Z) : string :=
  if v =? 0 then String "0" buf else fmtDigits 20 buf v.

(** [fmtFrac]: the [prec] low digits of [v] as a fraction, trailing
    zeros and a then useless decimal point left out. *)
Fixpoint fmtFracLoop (prec : nat) (buf : string) (v : Z) (print : bool)
  : string * Z * bool :=
  match prec with
  | O => (buf, v, print)
  | S prec' =>
      let d := v mod 10 in
      let print := print || negb (d =? 0) in
      let buf := if print then String (digit d) buf else buf in
      fmtFracLoop prec' buf (v / 10) print
  end.

Definition fmtFrac (buf : string) (v : Z) (prec : nat) : string * Z :=
  let '(buf, v, print) := fmtFracLoop prec buf v false in
  (if print then String "." buf else buf, v).

(** [Duration.String], as in [0s], [1m30s], [2h0m5s], [1.5ms]. *)
Definition DurationString (d : Duration) : string :=
  let u := Z.abs d in
  let neg := d <? 0 in
  let body :=
    if u <? Second then
      if u =? 0 then "0s"
      else if u <? 1000 then
        let '(buf, u) := fmtFrac "ns" u 0 in fmtInt buf u
      else if u <? 1000000 then
        (* the micro sign, U+00B5, is the two bytes C2 B5 *)
        let '(buf, u) :=
          fmtFrac (String (ascii_of_nat 194) (String (ascii_of_nat 181) "s")) u 3 in
        fmtInt buf u
      else
        let '(buf, u) := fmtFrac "ms" u 6 in fmtInt buf u
    else
      let '(buf, u) := fmtFrac "s" u 9 in
      let buf := fmtInt buf (u mod 60) in
      let u := u / 60 in
      if 0 <? u then
        let buf := fmtInt (String "m" buf) (u mod 60) in
        let u := u / 60 in
        if 0 <? u then fmtInt (String "h" buf) u else buf
      else buf
  in
  if neg then String "-" body else body.

(** The verb [%d] of [fmt] on an integer. *)
Definition FormatInt (i : Z) : string :=
  if i <? 0 then String "-" (fmtInt "" (- i)) else fmtInt "" i.

(** The line feed that [\n] denotes in a Go string literal. *)
Definition nl : string := String (ascii_of_nat 10) "".

(** [strings.HasPrefix(s, prefix)]. *)
Definition HasPrefix (s prefix : string) : bool := String.prefix prefix s.

(** [strings.TrimSpace] on a text of ASCII bytes, where it cuts the
    bytes tab, line feed, vertical tab, form feed, carriage return and
    space off both ends. *)
Definition isASCIISpace (c : ascii) : bool :=
  match nat_of_ascii c with
  | 9%nat | 10%nat | 11%nat | 12%nat | 13%nat | 32%nat => true
  | _ => false
  end.

Fixpoint trimLeftASCII (s : string) : string :=
  match s with
  | EmptyString => EmptyString
  | String c s' => if isASCIISpace c then trimLeftASCII s' else s
  end.

Fixpoint trimRightASCII (s : string) : string :=
  match s with
  | EmptyString => EmptyString
  | String c s' =>
      match trimRightASCII s' with
      | EmptyString => if isASCIISpace c then EmptyString else String c EmptyString
      | t => String c t
      end
  end.

Definition TrimSpaceASCII (s : string) : string :=
  trimRightASCII (trimLeftASCII s).

End Go.

(** ** The outside world *)

(** The failures the transports report.  Go's [error] is an interface with
    one method, [Error]; the constructors name the failures the program
    meets, [Errorf] is any other error, carrying its text.  For the named
    failures [Error] gives the cause only, without the operation and the
    address that Go's texts put before it. *)
Inductive error : Type :=
| Timeout
| ConnRefused
| DNSFailure
| ExitError (code : Z)
| Errorf (msg : string).

Definition Error (e : error) : string :=
  match e with
  | Timeout => "context deadline exceeded"
  | ConnRefused => "connection refused"
  | DNSFailure => "no such host"
  | ExitError code => "exit status " ++ Go.FormatInt code
  | Errorf msg => msg
  end.

(** A Go pair [(value, err)] of which exactly one side is meaningful. *)
Inductive result (A : Type) : Type :=
| Ok (a : A)
| Err (e : error).

Arguments Ok {A} a.
Arguments Err {A} e.

(** [http.Response], reduced to the one field the program reads. *)
Record Response : Type := { StatusCode : Z }.

(** [url.Values] with one value per key. *)
Definition Values : Type := list (string * string).

(** What the world answers during one call of [check]. *)
Record Env : Type := {
  httpGet : string -> result Response;
  run : list string -> option error;
  now : Go.Time;
  postForm : string -> Values -> result Response
}.

(** What the program does to the world. *)
Inductive event : Type :=
| LogPrintf (line : string)
| PostForm (url : string) (form : Values)
| HttpGet (url : string)
| Sleep (d : Go.Duration)
| GoCheckAndReply (chatID : string)
| RangeUpdate (UpdateID : Z).

(** ** The program *)

Record Config : Type := {
  Target : string;
  BotToken : string;
  ChatID : string;
  PingInterval : Z
}.

Record Monitor : Type := {
  config : Config;
  isUp : bool;
  lastChange : Go.Time;
  lastCheck : Go.Time
}.

Definition set_isUp (m : Monitor) (b : bool) : Monitor :=
  {| config := config m; isUp := b;
     lastChange := lastChange m; lastCheck := lastCheck m |}.

Definition set_lastChange (m : Monitor) (t : Go.Time) : Monitor :=
  {| config := config m; isUp := isUp m;
     lastChange := t; lastCheck := lastCheck m |}.

Definition set_lastCheck (m : Monitor) (t : Go.Time) : Monitor :=
  {| config := config m; isUp := isUp m;
     lastChange := lastChange m; lastCheck := t |}.

(** [&Monitor{config: config}] of [main]: every other field is the zero
    value of its type. *)
Definition newMonitor (cfg : Config) : Monitor :=
  {| config := cfg; isUp := false;
     lastChange := Go.zeroTime; lastCheck := Go.zeroTime |}.

Definition httpCheck (m : Monitor) (env : Env) : bool :=
  match httpGet env (Target (config m)) with
  | Err _ => false
  | Ok resp => 0 <? StatusCode resp
  end.

Definition ping (m : Monitor) (env : Env) : bool :=
  if Go.HasPrefix (Target (config m)) "http://"
     || Go.HasPrefix (Target (config m)) "https://"
  then httpCheck m env
  else
    match run env ["ping"; "-c"; "3"; "-W"; "2"; Target (config m)] with
    | None => true
    | Some _ => false
    end.

Definition sendMessageURL (token : string) : string :=
  "https://api.telegram.org/bot" ++ token ++ "/sendMessage".

Definition sendTelegram (m : Monitor) (env : Env) (message : string)
  : option error * list event :=
  let apiURL := sendMessageURL (BotToken (config m)) in
  let form := [("chat_id", ChatID (config m)); ("text", message)] in
  match postForm env apiURL form with
  | Err err => (Some err, [PostForm apiURL form])
  | Ok resp =>
      if negb (StatusCode resp =? 200)
      then (Some (Errorf ("telegram API returned status "
                          ++ Go.FormatInt (StatusCode resp))),
            [PostForm apiURL form])
      else (None, [PostForm apiURL form])
  end.

Definition check (m : Monitor) (env : Env) : Monitor * list event :=
  let up := ping m env in
  let now := now env in
  let m := set_lastCheck m now in
  let prevUp := isUp m in
  let firstCheck := Go.IsZero (lastChange m) in
  if negb (Bool.eqb up prevUp) || firstCheck then
    let m := set_isUp m up in
    let m := set_lastChange m now in
    let msg :=
      if up then
        if firstCheck then
          "🟢 Network monitor started. " ++ Target (config m) ++ " is UP."
        else
          let downtime := Go.Round (Go.Sub now (lastChange m)) Go.Second in
          "🟢 " ++ Target (config m) ++ " is back UP! (was down for "
          ++ Go.DurationString downtime ++ ")"
      else
        if firstCheck then
          "🔴 Network monitor started. " ++ Target (config m) ++ " is DOWN!"
        else
          "🔴 " ++ Target (config m) ++ " is DOWN!"
    in
    let '(err, sent) := sendTelegram m env msg in
    (m,
     ([LogPrintf ("Status change: " ++ msg)] ++ sent ++
      match err with
      | Some err =>
          [LogPrintf ("Failed to send Telegram message: " ++ Error err)]
      | None => []
      end)%list)
  else
    (m,
     [LogPrintf ("Ping " ++ Target (config m) ++ ": still "
                 ++ (if up then "UP" else "DOWN"))]).

(** [getStatus] reads the clock twice, once for each [time.Since]. *)
Definition getStatus (m : Monitor) (now1 now2 : Go.Time) : string :=
  let status := if negb (isUp m) then "DOWN 🔴" else "UP 🟢" in
  let duration := Go.Round (Go.Sub now1 (lastChange m)) Go.Second in
  let lastCheckAgo := Go.Round (Go.Sub now2 (lastCheck m)) Go.Second in
  "Target: " ++ Target (config m) ++ Go.nl
  ++ "Status: " ++ status ++ Go.nl
  ++ "Since: " ++ Go.DurationString duration ++ " ago" ++ Go.nl
  ++ "Last check: " ++ Go.DurationString lastCheckAgo ++ " ago".

(** The checks of one run, in the order the mutex admits them: the
    initial check of [main], those of the ticker and those a [/ping]
    starts.  Each step keeps the state it leaves and the events it
    emits. *)
Fixpoint checks (m : Monitor) (envs : list Env) : list (Monitor * list event) :=
  match envs with
  | [] => []
  | env :: envs' =>
      let r := check m env in
      r :: checks (fst r) envs'
  end.

(** The state in which the [i]-th check of a run finds the monitor. *)
Definition stateBefore (cfg : Config) (envs : list Env) (i : nat) : Monitor :=
  fold_left (fun m env => fst (check m env)) (firstn i envs) (newMonitor cfg).

(** A notification is a form posted to [sendMessage] for the configured
    chat. *)
Definition notification (m : Monitor) (msg : string) : event :=
  PostForm (sendMessageURL (BotToken (config m)))
           [("chat_id", ChatID (config m)); ("text", msg)].

Definition notifies (m : Monitor) (env : Env) : Prop :=
  exists msg, In (notification m msg) (snd (check m env)).

(** ** The command loop *)

Record ChatT : Type := { ID : Z }.

Record MessageT : Type := { Text : string; Chat : ChatT }.

Record TelegramUpdate : Type := {
  UpdateID : Z;
  Message : option MessageT
}.

(** What the world answers while one update is handled.  Other goroutines
    write the fields of the monitor between two updates, so each update
    comes with the monitor as its handler finds it ([shared]); [since1]
    and [since2] are the two clock readings of [getStatus]. *)
Record UpdateEnv : Type := {
  shared : Monitor;
  since1 : Go.Time;
  since2 : Go.Time;
  reply : string -> Values -> result Response
}.

(** What the world answers during one turn of the loop of [runBot]:
    [poll offset] is the decoded [result] array of the answer to
    [getUpdates] for that offset, or the error of the request or of the
    decoding; [handler i] serves the [i]-th update of the answer. *)
Record BotEnv : Type := {
  poll : Z -> result (list TelegramUpdate);
  handler : nat -> UpdateEnv
}.

Definition getUpdatesURL (token : string) (offset : Z) : string :=
  "https://api.telegram.org/bot" ++ token ++ "/getUpdates?offset="
  ++ Go.FormatInt offset ++ "&timeout=30".

Definition getUpdates (m : Monitor) (env : BotEnv) (offset : Z)
  : result (list TelegramUpdate) * list event :=
  let apiURL := getUpdatesURL (BotToken (config m)) offset in
  (poll env offset, [HttpGet apiURL]).

Definition replyToChat (m : Monitor) (post : string -> Values -> result Response)
  (chatID message : string) : list event :=
  let apiURL := sendMessageURL (BotToken (config m)) in
  let form := [("chat_id", chatID); ("text", message)] in
  match post apiURL form with
  | Err err => [PostForm apiURL form; LogPrintf ("Failed to reply: " ++ Error err)]
  | Ok _ => [PostForm apiURL form]
  end.

Definition startText (chatID : string) : string :=
  "Network Monitor Bot" ++ Go.nl ++ Go.nl ++ "Your chat ID: " ++ chatID
  ++ Go.nl ++ Go.nl ++ "Commands:" ++ Go.nl ++ "/status - Check current status".

Section CommandLoop.

(** [strings.TrimSpace], which cuts the Unicode white space off both
    ends of a text, is a parameter of the model. *)
Variable TrimSpace : string -> string.

(** The body of the loop over the updates of one answer.  [RangeUpdate]
    is a ghost event: it records that the body ran for this update. *)
Definition handleUpdate (e : UpdateEnv) (update : TelegramUpdate)
  : Z * list event :=
  let m := shared e in
  let offset := Go.wrap64 (UpdateID update + 1) in
  match Message update with
  | None => (offset, [RangeUpdate (UpdateID update)])
  | Some message =>
      let text := TrimSpace (Text message) in
      let chatID := Go.FormatInt (ID (Chat message)) in
      (offset,
       ([RangeUpdate (UpdateID update);
         LogPrintf ("Received message from chat " ++ chatID ++ ": " ++ text)]
        ++
        if Go.HasPrefix text "/status" then
          replyToChat m (reply e) chatID (getStatus m (since1 e) (since2 e))
        else if Go.HasPrefix text "/start" then
          replyToChat m (reply e) chatID (startText chatID)
        else if Go.HasPrefix text "/ping" then
          replyToChat m (reply e) chatID "Checking now..."
          ++ [GoCheckAndReply chatID]
        else [])%list)
  end.

Fixpoint rangeUpdates (h : nat -> UpdateEnv) (i : nat) (offset : Z)
  (updates : list TelegramUpdate) : Z * list event :=
  match updates with
  | [] => (offset, [])
  | update :: rest =>
      let '(offset, evs) := handleUpdate (h i) update in
      let '(offset, evs') := rangeUpdates h (S i) offset rest in
      (offset, (evs ++ evs')%list)
  end.

(** One turn of the endless loop of [runBot]. *)
Definition runBotTurn (m : Monitor) (env : BotEnv) (offset : Z)
  : Z * list event :=
  let '(updates, evs) := getUpdates m env offset in
  match updates with
  | Err err =>
      (offset,
       (evs ++ [LogPrintf ("Error getting updates: " ++ Error err);
                Sleep (5 * Go.Second)])%list)
  | Ok updates =>
      let '(offset, evs') := rangeUpdates (handler env) 0 offset updates in
      (offset, (evs ++ evs' ++ [Sleep (1 * Go.Second)])%list)
  end.

(** The first turns of the loop, one per environment. *)
Fixpoint runBotFrom (m : Monitor) (envs : list BotEnv) (offset : Z)
  : Z * list event :=
  match envs with
  | [] => (offset, [])
  | env :: envs' =>
      let '(offset, evs) := runBotTurn m env offset in
      let '(offset, evs') := runBotFrom m envs' offset in
      (offset, (evs ++ evs')%list)
  end.

Definition runBot (m : Monitor) (envs : list BotEnv) : Z * list event :=
  let offset := 0 in
  runBotFrom m envs offset.

End CommandLoop.

(** The updates the loop body ran for, in order. *)
Definition ranged (evs : list event) : list Z :=
  flat_map (fun e => match e with RangeUpdate id => [id] | _ => [] end) evs.

(** The offsets the loop asked [getUpdates] for are read off the trace
    through the URLs. *)
Definition polled (token : string) (offset : Z) : event :=
  HttpGet (getUpdatesURL token offset).

(** ** Notions the properties are stated with *)

(** The test of [check], on the state the check finds. *)
Definition transition (m : Monitor) (env : Env) : bool :=
  negb (Bool.eqb (ping m env) (isUp m)) || Go.IsZero (lastChange m).

(** The test of [ping] that sends a target to [httpCheck]. *)
Definition isHTTPTarget (target : string) : bool :=
  Go.HasPrefix target "http://" || Go.HasPrefix target "https://".

Definition pingCommand (target : string) : list string :=
  ["ping"; "-c"; "3"; "-W"; "2"; target].

(** The text [check] builds for a target that is reachable again. *)
Definition backUpMessage (target : string) (downtime : Go.Duration) : string :=
  "🟢 " ++ target ++ " is back UP! (was down for "
  ++ Go.DurationString downtime ++ ")".

(** The environment [env] with another answer of the Telegram API. *)
Definition withPostForm (env : Env)
  (post : string -> Values -> result Response) : Env :=
  {| httpGet := httpGet env; run := run env; now := now env; postForm := post |}.

(** A poll source keeps the offset protocol when each answer holds only
    updates at or above the offset asked for, in increasing order of
    their identifiers (all of which leave room for the [+ 1]). *)
Definition increasingFrom (offset : Z) (ids : list Z) : Prop :=
  StronglySorted Z.lt ids
  /\ Forall (fun id => offset <= id < Go.maxInt64) ids.

(** That a reply with this text went to this chat. *)
Definition replied (m : Monitor) (chatID message : string)
  (evs : list event) : Prop :=
  In (PostForm (sendMessageURL (BotToken (config m)))
               [("chat_id", chatID); ("text", message)]) evs.

Definition honours (env : BotEnv) : Prop :=
  forall offset updates,
    poll env offset = Ok updates ->
    increasingFrom offset (map UpdateID updates).

(** ** Concrete inputs *)

Definition cfgHost : Config :=
  {| Target := "example.org"; BotToken := "TOKEN"; ChatID := "42";
     PingInterval := 300 |}.

Definition cfgURL : Config :=
  {| Target := "https://example.org/"; BotToken := "TOKEN"; ChatID := "42";
     PingInterval := 300 |}.

(** A clock reading, [s] seconds after an instant in the year 2025. *)
Definition clock (s : Z) : Go.Time := (63900000000 + s) * Go.Second.

(** The world at second [s]: the target answers or not, Telegram accepts
    the message or cannot be reached. *)
Definition world (up : bool) (s : Z) (delivered : bool) : Env :=
  {| httpGet := fun _ => if up then Ok {| StatusCode := 200 |} else Err Timeout;
     run := fun _ => if up then None else Some (ExitError 1);
     now := clock s;
     postForm := fun _ _ =>
       if delivered then Ok {| StatusCode := 200 |} else Err ConnRefused |}.

(** A web server that answers every request with the given status code. *)
Definition server (code : Z) : Env :=
  {| httpGet := fun _ => Ok {| StatusCode := code |};
     run := fun _ => Some (ExitError 1);
     now := clock 0;
     postForm := fun _ _ => Ok {| StatusCode := 200 |} |}.

(** An update that carries a text from chat 42. *)
Definition command (id : Z) (text : string) : TelegramUpdate :=
  {| UpdateID := id;
     Message := Some {| Text := text; Chat := {| ID := 42 |} |} |}.

(** The world while an update is handled: the target was found up at
    second 0 and checked last at second 300, it is second 310 now. *)
Definition handling : UpdateEnv :=
  {| shared := {| config := cfgHost; isUp := true;
                  lastChange := clock 0; lastCheck := clock 300 |};
     since1 := clock 310;
     since2 := clock 310;
     reply := fun _ _ => Ok {| StatusCode := 200 |} |}.

(** A poll source that answers every request with the same three
    commands, whatever offset is asked for. *)
Definition repeating : BotEnv :=
  {| poll := fun _ => Ok [command 5 "/status"; command 6 "/start";
                          command 7 "/ping"];
     handler := fun _ => handling |}.

(** A poll source that holds the given commands and answers with those
    at or above the offset asked for. *)
Definition inbox (updates : list TelegramUpdate) : BotEnv :=
  {| poll := fun offset =>
       Ok (filter (fun u => offset <=? UpdateID u) updates);
     handler := fun _ => handling |}.

(** ** Start-up *)

(** What the file system and the JSON decoder answer to [loadConfig]:
    [readFile] is [os.ReadFile]; [unmarshal data] is the [Config] that
    [json.Unmarshal] fills from the bytes (a key the document lacks leaves
    the zero value of its field), or its error. *)
Record FileEnv : Type := {
  readFile : string -> result string;
  unmarshal : string -> result Config
}.

(** [Config{}]. *)
Definition zeroConfig : Config :=
  {| Target := ""; BotToken := ""; ChatID := ""; PingInterval := 0 |}.

Definition set_PingInterval (cfg : Config) (i : Z) : Config :=
  {| Target := Target cfg; BotToken := BotToken cfg; ChatID := ChatID cfg;
     PingInterval := i |}.

Definition loadConfig (fs : FileEnv) (path : string) : Config * option error :=
  match readFile fs path with
  | Err err => (zeroConfig, Some err)
  | Ok data =>
      match unmarshal fs data with
      | Err err => (zeroConfig, Some err)
      | Ok cfg =>
          let cfg :=
            if PingInterval cfg =? 0 then set_PingInterval cfg 300 else cfg in
          (cfg, None)
      end
  end.

(** [os.Args] holds the name of the program and then its arguments. *)
Definition configPath (Args : list string) : string :=
  match Args with
  | _ :: path :: _ => path
  | _ => "config.json"
  end.

(** What [main] does besides the events of its check. *)
Inductive mainEvent : Type :=
| Did (e : event)
| GoRunBot
| NewTicker (d : Go.Duration)
| Exit (code : Z).

(** How the start of [main] ends: [log.Fatalf] leaves the process,
    [time.NewTicker] panics on an interval that is not positive, or the
    loop over the ticker is entered, with the monitor as the first check
    left it. *)
Inductive outcome : Type :=
| Fatal
| Panic (msg : string)
| Ticking (monitor : Monitor) (d : Go.Duration).

(** [main] up to the loop over [ticker.C]; the checks of that loop are
    those of [checks].  [time.Duration(i) * time.Second] is a product of
    [int64] values. *)
Definition main (Args : list string) (fs : FileEnv) (env : Env)
  : list mainEvent * outcome :=
  let configPath := configPath Args in
  let '(config, err) := loadConfig fs configPath in
  match err with
  | Some err =>
      ([Did (LogPrintf ("Failed to load config: " ++ Error err)); Exit 1],
       Fatal)
  | None =>
      let started :=
        LogPrintf ("Starting network monitor for " ++ Target config
                   ++ " (interval: " ++ Go.FormatInt (PingInterval config)
                   ++ "s)") in
      let monitor := newMonitor config in
      let '(monitor, evs) := check monitor env in
      let d := Go.wrap64 (PingInterval config * Go.Second) in
      (((Did started :: map Did evs) ++ [GoRunBot; NewTicker d])%list,
       if d <=? 0 then Panic "non-positive interval for NewTicker"
       else Ticking monitor d)
  end.

(** The goroutine that [/ping] starts: a check, then the status report to
    the chat that asked.  [now1] and [now2] are the clock readings of
    [getStatus]; the model runs the two statements with no other goroutine
    writing the monitor in between. *)
Definition pingGoroutine (m : Monitor) (env : Env) (now1 now2 : Go.Time)
  (post : string -> Values -> result Response) (chatID : string)
  : Monitor * list event :=
  let '(m, evs) := check m env in
  (m, (evs ++ replyToChat m post chatID (getStatus m now1 now2))%list).

(** ** More notions for the properties *)

(** The forms posted to Telegram, in order. *)
Definition posted (evs : list event) : list Values :=
  flat_map (fun e => match e with PostForm _ form => [form] | _ => [] end) evs.

(** The goroutines started. *)
Definition started (evs : list event) : list string :=
  flat_map (fun e => match e with GoCheckAndReply c => [c] | _ => [] end) evs.

(** How often a list of probe results differs from the result before,
    [prev] coming before the first. *)
Fixpoint changes (prev : bool) (probes : list bool) : nat :=
  match probes with
  | [] => 0%nat
  | b :: rest => ((if Bool.eqb b prev then 0 else 1) + changes b rest)%nat
  end.

(** The events of [main] that are events of its check. *)
Definition done (evs : list mainEvent) : list event :=
  flat_map (fun e => match e with Did e => [e] | _ => [] end) evs.

(** A file system with one file, whose content decodes to [cfg]. *)
Definition oneFile (path : string) (cfg : Config) : FileEnv :=
  {| readFile := fun p =>
       if String.eqb p path then Ok "{}" else Err (Errorf "no such file or directory");
     unmarshal := fun _ => Ok cfg |}.

(** The text of the notification of a check that probes [up], by whether
    it is the first check; [check] computes the downtime of a target that
    is back from the [lastChange] it has just set, which makes it [0]. *)
Definition checkMessage (up firstCheck : bool) (target : string) : string :=
  if up then
    if firstCheck then "🟢 Network monitor started. " ++ target ++ " is UP."
    else backUpMessage target 0
  else
    if firstCheck then "🔴 Network monitor started. " ++ target ++ " is DOWN!"
    else "🔴 " ++ target ++ " is DOWN!".

(** The form [sendTelegram] posts for a text. *)
Definition telegramForm (cfg : Config) (text : string) : Values :=
  [("chat_id", ChatID cfg); ("text", text)].

(** The URLs requested with GET, in order. *)
Definition fetched (evs : list event) : list string :=
  flat_map (fun e => match e with HttpGet url => [url] | _ => [] end) evs.

(** Whether the loop of [runBot] answers a text. *)
Definition isCommand (text : string) : bool :=
  Go.HasPrefix text "/status" || Go.HasPrefix text "/start"
  || Go.HasPrefix text "/ping".

(** A poll that brings nothing: an error, or an answer without updates. *)
Definition bringsNothing (env : BotEnv) (offset : Z) : Prop :=
  match poll env offset with
  | Err _ => True
  | Ok updates => updates = []
  end.

(** A poll source that cannot be reached. *)
Definition unreachable : BotEnv :=
  {| poll := fun _ => Err ConnRefused; handler := fun _ => handling |}.

(** Whether an update carries a text the loop answers, and whether it
    carries one that starts a check. *)
Definition answered (TrimSpace : string -> string) (update : TelegramUpdate)
  : bool :=
  match Message update with
  | Some message => isCommand (TrimSpace (Text message))
  | None => false
  end.

Definition asksPing (TrimSpace : string -> string) (update : TelegramUpdate)
  : bool :=
  match Message update with
  | Some message => Go.HasPrefix (TrimSpace (Text message)) "/ping"
  | None => false
  end.

(** An update without a message, as Telegram sends for an edited message
    or a channel post. *)
Definition silent (id : Z) : TelegramUpdate :=
  {| UpdateID := id; Message := None |}.

(** A poll source that answers every request with the given updates. *)
Definition answering (updates : list TelegramUpdate) : BotEnv :=
  {| poll := fun _ => Ok updates; handler := fun _ => handling |}.

(** * Properties *)

(** ** The formatting of durations and integers *)

Example DurationString_90s : Go.DurationString (90 * Go.Second) = "1m30s".
Proof. reflexivity. Qed.

Example DurationString_2h : Go.DurationString (7205 * Go.Second) = "2h0m5s".
Proof. reflexivity. Qed.

Example DurationString_frac : Go.DurationString 1500000 = "1.5ms".
Proof. reflexivity. Qed.

Example DurationString_neg : Go.DurationString (- 61 * Go.Second) = "-1m1s".
Proof. reflexivity. Qed.

Example Round_half_up : Go.Round 1500000000 Go.Second = 2000000000.
Proof. reflexivity. Qed.

Example Round_down : Go.Round 1499999999 Go.Second = 1000000000.
Proof. reflexivity. Qed.

Example Round_half_away : Go.Round (- 1500000000) Go.Second = - 2000000000.
Proof. reflexivity. Qed.

Example FormatInt_neg : Go.FormatInt (- 1001234) = "-1001234".
Proof. reflexivity. Qed.

Example TrimSpaceASCII_both_ends :
  Go.TrimSpaceASCII (" " ++ Go.nl ++ "/ping now  ") = "/ping now".
Proof. reflexivity. Qed.

(** ** The transition detector *)

Lemma sendTelegram_events (m : Monitor) (env : Env) (msg : string) :
  snd (sendTelegram m env msg) = [notification m msg].
Proof.
  unfold sendTelegram, notification.
  destruct (postForm env _ _) as [resp|err]; [|reflexivity].
  destruct (negb (StatusCode resp =? 200)); reflexivity.
Qed.

(** Names the outcome of the one call of [sendTelegram] in the goal and
    replaces its events by the notification they are. *)
Ltac case_sendTelegram env :=
  match goal with
  | |- context [sendTelegram ?m env ?msg] =>
      let Hs := fresh "Hs" in
      let err := fresh "err" in
      let sent := fresh "sent" in
      pose proof (sendTelegram_events m env msg) as Hs;
      destruct (sendTelegram m env msg) as [err sent];
      cbn [fst snd] in *; subst sent
  end.

Lemma check_steady (m : Monitor) (env : Env) :
  transition m env = false ->
  check m env =
    (set_lastCheck m (now env),
     [LogPrintf ("Ping " ++ Target (config m) ++ ": still "
                 ++ (if ping m env then "UP" else "DOWN"))]).
Proof.
  unfold transition, check; cbn [set_lastCheck isUp lastChange config].
  intros ->. reflexivity.
Qed.

Lemma check_transition_state (m : Monitor) (env : Env) :
  transition m env = true ->
  fst (check m env) =
    {| config := config m; isUp := ping m env;
       lastChange := now env; lastCheck := now env |}.
Proof.
  unfold transition, check; cbn [set_lastCheck isUp lastChange config].
  intros ->.
  destruct (sendTelegram _ env _) as [err sent]. reflexivity.
Qed.

Lemma check_transition_notifies (m : Monitor) (env : Env) :
  transition m env = true -> notifies m env.
Proof.
  unfold notifies, transition, check; cbn [set_lastCheck isUp lastChange config].
  intros ->.
  match goal with
  | |- context [sendTelegram _ env ?msg] => exists msg
  end.
  case_sendTelegram env. right. left. reflexivity.
Qed.

Lemma transition_spec (m : Monitor) (env : Env) :
  transition m env = true <->
  (ping m env <> isUp m \/ Go.IsZero (lastChange m) = true).
Proof.
  unfold transition. rewrite orb_true_iff, negb_true_iff, eqb_false_iff.
  reflexivity.
Qed.

Lemma notifies_iff_transition (m : Monitor) (env : Env) :
  notifies m env <-> transition m env = true.
Proof.
  split.
  - intros [msg Hin]. destruct (transition m env) eqn:Ht; [reflexivity|].
    rewrite (check_steady _ _ Ht) in Hin. cbn in Hin.
    destruct Hin as [Hin|[]]. discriminate Hin.
  - apply check_transition_notifies.
Qed.

(** The fields of the state a check leaves, in both branches. *)
Lemma check_config (m : Monitor) (env : Env) :
  config (fst (check m env)) = config m.
Proof.
  destruct (transition m env) eqn:Ht.
  - rewrite (check_transition_state _ _ Ht). reflexivity.
  - rewrite (check_steady _ _ Ht). reflexivity.
Qed.

Lemma check_lastCheck (m : Monitor) (env : Env) :
  lastCheck (fst (check m env)) = now env.
Proof.
  destruct (transition m env) eqn:Ht.
  - rewrite (check_transition_state _ _ Ht). reflexivity.
  - rewrite (check_steady _ _ Ht). reflexivity.
Qed.

Lemma check_isUp (m : Monitor) (env : Env) :
  isUp (fst (check m env)) = ping m env.
Proof.
  destruct (transition m env) eqn:Ht.
  - rewrite (check_transition_state _ _ Ht). reflexivity.
  - rewrite (check_steady _ _ Ht). cbn.
    unfold transition in Ht. apply orb_false_iff in Ht as [Ht _].
    apply negb_false_iff, eqb_prop in Ht. symmetry. exact Ht.
Qed.

Lemma check_lastChange (m : Monitor) (env : Env) :
  lastChange (fst (check m env)) =
    if transition m env then now env else lastChange m.
Proof.
  destruct (transition m env) eqn:Ht.
  - rewrite (check_transition_state _ _ Ht). reflexivity.
  - rewrite (check_steady _ _ Ht). reflexivity.
Qed.

(** [ping] reads the configuration only. *)
Lemma ping_config (m m' : Monitor) (env : Env) :
  config m = config m' -> ping m env = ping m' env.
Proof.
  unfold ping, httpCheck. intros ->. reflexivity.
Qed.

(** The run and the states its checks start from. *)
Lemma stateBefore_S (cfg : Config) (envs : list Env) (i : nat) (env : Env) :
  nth_error envs i = Some env ->
  stateBefore cfg envs (S i) = fst (check (stateBefore cfg envs i) env).
Proof.
  unfold stateBefore. generalize (newMonitor cfg) as m.
  revert envs. induction i as [|i IH]; intros [|e envs] m H; try discriminate.
  - injection H as ->. reflexivity.
  - cbn [nth_error] in H. cbn [firstn fold_left].
    rewrite <- (IH envs _ H). reflexivity.
Qed.

Lemma checks_nth (m : Monitor) (envs : list Env) (i : nat) (env : Env) :
  nth_error envs i = Some env ->
  nth_error (checks m envs) i =
    Some (check (fold_left (fun m env => fst (check m env)) (firstn i envs) m) env).
Proof.
  revert m envs. induction i as [|i IH]; intros m [|e envs] H; try discriminate.
  - injection H as ->. reflexivity.
  - cbn [nth_error] in H. cbn [checks nth_error firstn fold_left].
    apply IH. exact H.
Qed.

(** On a run whose clock never reads Go's zero instant, [lastChange] is
    unset before the first check and never again, and the recorded
    [isUp] is the value probed by the check before: a check notifies
    exactly when it is the first of the run or its probe differs from the
    previous one. *)
Lemma stateBefore_lastChange_set (cfg : Config) (envs : list Env) (i : nat) :
  Forall (fun env => Go.IsZero (now env) = false) envs ->
  (i < List.length envs)%nat ->
  Go.IsZero (lastChange (stateBefore cfg envs (S i))) = false.
Proof.
  intros Hclock. induction i as [|i IH]; intros Hi.
  - destruct envs as [|e envs]; [cbn in Hi; lia|].
    rewrite (stateBefore_S cfg (e :: envs) 0 e eq_refl), check_lastChange.
    unfold stateBefore, transition. cbn. rewrite orb_true_r.
    inversion Hclock; assumption.
  - destruct (nth_error envs (S i)) as [env|] eqn:He.
    + rewrite (stateBefore_S _ _ _ _ He), check_lastChange.
      destruct (transition _ env).
      * rewrite Forall_forall in Hclock. apply Hclock.
        eapply nth_error_In; eassumption.
      * apply IH. lia.
    + apply nth_error_None in He. lia.
Qed.

Lemma checks_notify_on_edges (cfg : Config) (envs : list Env)
  (i : nat) (prev env : Env) :
  Forall (fun env => Go.IsZero (now env) = false) envs ->
  nth_error envs i = Some prev ->
  nth_error envs (S i) = Some env ->
  let m := stateBefore cfg envs (S i) in
  notifies m env <-> ping m env <> ping (stateBefore cfg envs i) prev.
Proof.
  intros Hclock Hp He m.
  assert (Hi : (i < List.length envs)%nat)
    by (apply nth_error_Some; rewrite Hp; discriminate).
  rewrite notifies_iff_transition, transition_spec.
  unfold m. rewrite (stateBefore_lastChange_set cfg envs i Hclock Hi).
  rewrite (stateBefore_S _ _ _ _ Hp), check_isUp.
  split; [intros [H|H]; [exact H|discriminate]|intros H; left; exact H].
Qed.

Lemma stateBefore_zero (cfg : Config) (envs : list Env) :
  stateBefore cfg envs 0 = newMonitor cfg.
Proof. reflexivity. Qed.

(** C1. In every run of checks from the fresh monitor, the [i]-th check
    (whose outcome the run lists at position [i]) posts a notification
    exactly when the probed value differs from the recorded [isUp] or
    [lastChange] is still unset, and the first check always posts one.
    The recorded [isUp] is the value the check before probed; and on a
    run whose clock never reads Go's zero instant, [lastChange] is unset
    before the first check only, so that a check notifies exactly when it
    is the first of the run or its probe differs from the probe of the
    check before. *)
Theorem check_notifies_iff_changed_or_first
  (cfg : Config) (envs : list Env) (i : nat) (env : Env) :
  nth_error envs i = Some env ->
  let m := stateBefore cfg envs i in
  nth_error (checks (newMonitor cfg) envs) i = Some (check m env)
  /\ (notifies m env <->
      (ping m env <> isUp m \/ Go.IsZero (lastChange m) = true))
  /\ (i = 0%nat -> notifies m env)
  /\ (forall j prev,
        i = S j -> nth_error envs j = Some prev ->
        isUp m = ping (stateBefore cfg envs j) prev)
  /\ (Forall (fun env => Go.IsZero (now env) = false) envs ->
      (Go.IsZero (lastChange m) = true <-> i = 0%nat)
      /\ (notifies m env <->
          i = 0%nat
          \/ exists j prev,
               i = S j /\ nth_error envs j = Some prev
               /\ ping m env <> ping (stateBefore cfg envs j) prev)).
Proof.
  intros Hi m.
  assert (Hfirst : i = 0%nat -> notifies m env).
  { intros ->. apply check_transition_notifies.
    unfold m, stateBefore, transition. cbn. apply orb_true_r. }
  assert (Hrec : forall j prev,
             i = S j -> nth_error envs j = Some prev ->
             isUp m = ping (stateBefore cfg envs j) prev).
  { intros j prev -> Hj. unfold m.
    rewrite (stateBefore_S _ _ _ _ Hj). apply check_isUp. }
  split; [apply checks_nth; exact Hi|].
  split; [rewrite notifies_iff_transition; apply transition_spec|].
  split; [exact Hfirst|]. split; [exact Hrec|].
  intros Hclock.
  assert (Hunset : Go.IsZero (lastChange m) = true <-> i = 0%nat).
  { destruct i as [|j].
    - split; [reflexivity|]. intros _. reflexivity.
    - assert (Hj : (j < List.length envs)%nat).
      { assert (S j < List.length envs)%nat; [|lia].
        apply nth_error_Some. rewrite Hi. discriminate. }
      unfold m. rewrite (stateBefore_lastChange_set cfg envs j Hclock Hj).
      split; discriminate. }
  split; [exact Hunset|].
  rewrite notifies_iff_transition, transition_spec. split.
  - intros [Hdiff|Hzero]; [|left; apply Hunset; exact Hzero].
    destruct i as [|j]; [left; reflexivity|]. right.
    destruct (nth_error envs j) as [prev|] eqn:Hj.
    + exists j, prev. split; [reflexivity|]. split; [exact Hj|].
      rewrite <- (Hrec j prev eq_refl Hj). exact Hdiff.
    + apply nth_error_None in Hj.
      assert (S j < List.length envs)%nat; [|lia].
      apply nth_error_Some. rewrite Hi. discriminate.
  - intros [Hz|[j [prev [Hij [Hj Hdiff]]]]].
    + right. apply Hunset. exact Hz.
    + left. rewrite (Hrec j prev Hij Hj). exact Hdiff.
Qed.

Lemma check_notifies_iff_changed_or_first_witness :
  let envs := [world true 0 true; world true 300 true; world false 600 true] in
  let m1 := stateBefore cfgHost envs 1 in
  let m2 := stateBefore cfgHost envs 2 in
  notifies (stateBefore cfgHost envs 0) (world true 0 true)
  /\ isUp m1 = true
  /\ ~ notifies m1 (world true 300 true)
  /\ nth_error (checks (newMonitor cfgHost) envs) 2
     = Some (check m2 (world false 600 true))
  /\ isUp m2 = true
  /\ Go.IsZero (lastChange m2) = false
  /\ notifies m2 (world false 600 true).
Proof.
  cbv zeta.
  pose proof (fun i env =>
                check_notifies_iff_changed_or_first cfgHost
                  [world true 0 true; world true 300 true; world false 600 true]
                  i env) as H.
  cbv zeta in H.
  assert (Hclock : Forall (fun env => Go.IsZero (now env) = false)
                     [world true 0 true; world true 300 true;
                      world false 600 true])
    by (repeat constructor).
  destruct (H 0%nat (world true 0 true) eq_refl) as [_ [_ [Hfirst _]]].
  destruct (H 1%nat (world true 300 true) eq_refl)
    as [_ [_ [_ [Hrec1 Hrun1]]]].
  destruct (H 2%nat (world false 600 true) eq_refl)
    as [Hnth [_ [_ [Hrec2 Hrun2]]]].
  destruct (Hrun1 Hclock) as [_ Hedge1].
  destruct (Hrun2 Hclock) as [Hunset2 Hedge2].
  split; [exact (Hfirst eq_refl)|].
  split; [exact (Hrec1 0%nat (world true 0 true) eq_refl eq_refl)|].
  split.
  { intros Hn. apply Hedge1 in Hn.
    destruct Hn as [Hz|[j [prev [Hij [Hj Hdiff]]]]]; [discriminate Hz|].
    injection Hij as <-. injection Hj as <-. apply Hdiff. reflexivity. }
  split; [exact Hnth|].
  split; [exact (Hrec2 1%nat (world true 300 true) eq_refl eq_refl)|].
  split.
  { apply not_true_is_false. intros Hz. apply Hunset2 in Hz. discriminate Hz. }
  apply Hedge2. right. exists 1%nat, (world true 300 true).
  split; [reflexivity|]. split; [reflexivity|]. discriminate.
Defined.

(** C9. A check that finds the recorded value again, on a monitor whose
    [lastChange] is set, leaves [isUp] and [lastChange] (and the
    configuration) as they were and moves [lastCheck] to the time of the
    check. *)
Theorem check_steady_frame (m : Monitor) (env : Env) :
  ping m env = isUp m ->
  Go.IsZero (lastChange m) = false ->
  let m' := fst (check m env) in
  isUp m' = isUp m
  /\ lastChange m' = lastChange m
  /\ config m' = config m
  /\ lastCheck m' = now env
  /\ ~ notifies m env.
Proof.
  intros Hup Hset m'.
  assert (Ht : transition m env = false).
  { unfold transition. rewrite Hup, Hset, eqb_reflx. reflexivity. }
  unfold m'. rewrite notifies_iff_transition, Ht.
  rewrite (check_steady _ _ Ht). cbn. repeat split. discriminate.
Qed.

Lemma check_steady_frame_witness :
  let m := fst (check (newMonitor cfgHost) (world true 0 true)) in
  let m' := fst (check m (world true 300 true)) in
  isUp m' = true
  /\ lastChange m' = clock 0
  /\ config m' = cfgHost
  /\ lastCheck m' = clock 300
  /\ ~ notifies m (world true 300 true).
Proof.
  exact (check_steady_frame
           (fst (check (newMonitor cfgHost) (world true 0 true)))
           (world true 300 true) eq_refl eq_refl).
Defined.

(** [sendTelegram] reads the configuration only. *)
Lemma sendTelegram_config (m m' : Monitor) (env : Env) (msg : string) :
  config m = config m' -> sendTelegram m env msg = sendTelegram m' env msg.
Proof.
  unfold sendTelegram. intros ->. reflexivity.
Qed.

(** C8. When a check detects a transition, the state it leaves holds the
    probed value and the time of the check whatever Telegram answers, and
    the trace is the status line, the post, and after a failed post one
    more log line: a failure of [sendTelegram] is logged and nothing
    else. *)
Theorem check_records_whatever_send (m : Monitor) (env : Env) :
  transition m env = true ->
  let m' := fst (check m env) in
  isUp m' = ping m env
  /\ lastChange m' = now env
  /\ lastCheck m' = now env
  /\ (forall post, fst (check m (withPostForm env post)) = m')
  /\ exists msg,
       snd (check m env) =
         ([LogPrintf ("Status change: " ++ msg); notification m msg] ++
          match fst (sendTelegram m env msg) with
          | Some err =>
              [LogPrintf ("Failed to send Telegram message: " ++ Error err)]
          | None => []
          end)%list.
Proof.
  intros Ht m'. unfold m'.
  rewrite (check_transition_state _ _ Ht). cbn [isUp lastChange lastCheck].
  repeat split.
  - intros post.
    assert (Ht' : transition m (withPostForm env post) = true) by exact Ht.
    rewrite (check_transition_state _ _ Ht'). reflexivity.
  - revert Ht. unfold transition, check.
    cbn [set_lastCheck isUp lastChange config]. intros ->.
    match goal with
    | |- context [sendTelegram ?m1 env ?msg] =>
        exists msg; rewrite (sendTelegram_config m1 m env msg eq_refl)
    end.
    case_sendTelegram env. reflexivity.
Qed.

Lemma check_records_whatever_send_witness :
  let m := fst (check (newMonitor cfgHost) (world true 0 true)) in
  let env := world false 300 false in
  let m' := fst (check m env) in
  isUp m' = false
  /\ lastChange m' = clock 300
  /\ lastCheck m' = clock 300
  /\ (forall post, fst (check m (withPostForm env post)) = m')
  /\ exists msg,
       snd (check m env) =
         ([LogPrintf ("Status change: " ++ msg); notification m msg] ++
          match fst (sendTelegram m env msg) with
          | Some err =>
              [LogPrintf ("Failed to send Telegram message: " ++ Error err)]
          | None => []
          end)%list.
Proof.
  exact (check_records_whatever_send
           (fst (check (newMonitor cfgHost) (world true 0 true)))
           (world false 300 false) eq_refl).
Defined.

Example check_failed_send_trace :
  check (fst (check (newMonitor cfgHost) (world true 0 true)))
        (world false 300 false) =
    ({| config := cfgHost; isUp := false;
        lastChange := clock 300; lastCheck := clock 300 |},
     [LogPrintf "Status change: 🔴 example.org is DOWN!";
      PostForm "https://api.telegram.org/botTOKEN/sendMessage"
        [("chat_id", "42"); ("text", "🔴 example.org is DOWN!")];
      LogPrintf ("Failed to send Telegram message: " ++ Error ConnRefused)]).
Proof. vm_compute. reflexivity. Qed.

(** ** Two checks in a row with the same probed value *)

(** C6, as stated, fails on a monitor that already records the value: of
    the second and third check of the run up, up, up, both probing
    [true], neither notifies, so the first of the two calls does not
    produce an [occurred = true] event. *)
Lemma check_twice_steady_counterexample :
  let envs := [world true 0 true; world true 300 true; world true 600 true] in
  let m := stateBefore cfgHost envs 1 in
  let m1 := fst (check m (world true 300 true)) in
  ping m (world true 300 true) = true
  /\ ping m1 (world true 600 true) = true
  /\ ~ (notifies m (world true 300 true)
        /\ ~ notifies m1 (world true 600 true)).
Proof.
  cbv zeta. split; [reflexivity|split; [reflexivity|]].
  intros [H _]. apply notifies_iff_transition in H.
  vm_compute in H. discriminate H.
Qed.

(** C6, amended. Of two checks in a row that probe the same value, the
    first at a clock reading other than Go's zero instant, the second
    never notifies, and the first notifies exactly when it is itself a
    transition (its value differs from the recorded one, or [lastChange]
    is unset, as on a fresh monitor). *)
Theorem check_twice_same_value (m : Monitor) (env1 env2 : Env) :
  let m1 := fst (check m env1) in
  ping m1 env2 = ping m env1 ->
  Go.IsZero (now env1) = false ->
  ~ notifies m1 env2
  /\ (notifies m env1 <->
      (ping m env1 <> isUp m \/ Go.IsZero (lastChange m) = true))
  /\ (Go.IsZero (lastChange m) = true -> notifies m env1).
Proof.
  intros m1 Hsame Hclock. split; [|split].
  - rewrite notifies_iff_transition. unfold transition, m1.
    rewrite check_isUp, check_lastChange.
    fold m1. rewrite Hsame, eqb_reflx. cbn [negb orb].
    destruct (transition m env1) eqn:Ht.
    + rewrite Hclock. discriminate.
    + unfold transition in Ht. apply orb_false_iff in Ht as [_ ->].
      discriminate.
  - rewrite notifies_iff_transition. apply transition_spec.
  - intros Hz. apply check_transition_notifies.
    unfold transition. rewrite Hz. apply orb_true_r.
Qed.

Lemma check_twice_same_value_witness :
  let m := newMonitor cfgHost in
  let env1 := world true 0 true in
  let env2 := world true 300 true in
  ~ notifies (fst (check m env1)) env2
  /\ (notifies m env1 <->
      (ping m env1 <> isUp m \/ Go.IsZero (lastChange m) = true))
  /\ (Go.IsZero (lastChange m) = true -> notifies m env1).
Proof.
  exact (check_twice_same_value (newMonitor cfgHost)
           (world true 0 true) (world true 300 true) eq_refl eq_refl).
Defined.

(** ** The two timestamps *)

(** What a monitor needs so that the checks to come keep [lastChange]
    below [lastCheck]: its [lastChange] is unset, or not after the time
    of the next check. *)
Lemma checks_lastChange_le_lastCheck (envs : list Env) :
  forall m : Monitor,
    Sorted Z.le (map now envs) ->
    Go.IsZero (lastChange m) = true
    \/ HdRel Z.le (lastChange m) (map now envs) ->
    Forall (fun m' => lastChange m' <= lastCheck m') (map fst (checks m envs)).
Proof.
  induction envs as [|env envs IH]; intros m Hsorted Hm; [constructor|].
  cbn [map checks fst]. cbn [map] in Hsorted, Hm.
  apply Sorted_inv in Hsorted as [Hsorted Hhd].
  constructor.
  - rewrite check_lastChange, check_lastCheck.
    destruct (transition m env) eqn:Ht; [lia|].
    unfold transition in Ht. apply orb_false_iff in Ht as [_ Hz].
    destruct Hm as [Hm|Hm]; [congruence|].
    apply HdRel_inv in Hm. exact Hm.
  - apply IH; [exact Hsorted|]. right.
    destruct Hhd as [|next rest Hle]; constructor.
    rewrite check_lastChange.
    destruct (transition m env) eqn:Ht; [exact Hle|].
    unfold transition in Ht. apply orb_false_iff in Ht as [_ Hz].
    destruct Hm as [Hm|Hm]; [congruence|].
    apply HdRel_inv in Hm. lia.
Qed.

Lemma checks_lastCheck (envs : list Env) :
  forall m : Monitor,
    map lastCheck (map fst (checks m envs)) = map now envs.
Proof.
  induction envs as [|env envs IH]; intros m; [reflexivity|].
  cbn [map checks fst]. rewrite check_lastCheck, IH. reflexivity.
Qed.

(** C3. In a run of checks whose clock readings never decrease, the
    values [lastCheck] takes never decrease (each is at most every later
    one), and after every check [lastChange <= lastCheck]. *)
Theorem lastCheck_monotone_lastChange_below
  (cfg : Config) (envs : list Env) :
  Sorted Z.le (map now envs) ->
  let states := map fst (checks (newMonitor cfg) envs) in
  StronglySorted Z.le (map lastCheck states)
  /\ Forall (fun m => lastChange m <= lastCheck m) states.
Proof.
  intros Hsorted states. unfold states. split.
  - rewrite checks_lastCheck. apply Sorted_StronglySorted; [|exact Hsorted].
    intros x y z. apply Z.le_trans.
  - apply checks_lastChange_le_lastCheck; [exact Hsorted|].
    left. reflexivity.
Qed.

Lemma lastCheck_monotone_lastChange_below_witness :
  let envs := [world true 0 true; world true 300 true; world false 300 true;
               world false 600 false; world true 900 true] in
  let states := map fst (checks (newMonitor cfgHost) envs) in
  StronglySorted Z.le (map lastCheck states)
  /\ Forall (fun m => lastChange m <= lastCheck m) states.
Proof.
  apply (lastCheck_monotone_lastChange_below cfgHost
           [world true 0 true; world true 300 true; world false 300 true;
            world false 600 false; world true 900 true]).
  repeat constructor; vm_compute; discriminate.
Defined.

(** ** The downtime in the message of a target that is back *)

Lemma Sub_self (t : Go.Time) : Go.Sub t t = 0.
Proof. unfold Go.Sub. rewrite Z.sub_diag. reflexivity. Qed.

(** [check] stores [now] in [lastChange] before it computes the downtime
    from [lastChange], so the downtime in the message is that of an
    instant to itself, whatever the monitor recorded before. *)
Lemma check_back_up_reports_no_downtime (m : Monitor) (env : Env) :
  ping m env = true ->
  isUp m = false ->
  Go.IsZero (lastChange m) = false ->
  In (notification m (backUpMessage (Target (config m)) 0))
     (snd (check m env))
  /\ Go.DurationString 0 = "0s".
Proof.
  intros Hup Hdown Hset. split; [|reflexivity].
  unfold check. cbn [set_lastCheck set_isUp set_lastChange isUp lastChange config].
  rewrite Hup, Hdown, Hset. cbn [Bool.eqb negb orb].
  rewrite Sub_self. change (Go.Round 0 Go.Second) with 0.
  case_sendTelegram env. right. left. reflexivity.
Qed.

(** C2, on the code. The target was recorded down at second 300 and is
    probed up at second 390: the claim has the message report the ninety
    seconds between the two, [check] reports [0s]. *)
Theorem check_back_up_downtime_at_90s :
  let envs := [world true 0 true; world false 300 true; world true 390 true] in
  let m := stateBefore cfgHost envs 2 in
  let env := world true 390 true in
  isUp m = false
  /\ lastChange m = clock 300
  /\ now env = clock 390
  /\ backUpMessage (Target cfgHost)
       (Go.Round (Go.Sub (now env) (lastChange m)) Go.Second)
     = "🟢 example.org is back UP! (was down for 1m30s)"
  /\ snd (check m env) =
       [LogPrintf "Status change: 🟢 example.org is back UP! (was down for 0s)";
        notification m "🟢 example.org is back UP! (was down for 0s)"].
Proof. vm_compute. repeat split. Qed.

(** ** The probe *)

Lemma httpCheck_true_iff (m : Monitor) (env : Env) :
  httpCheck m env = true <->
  exists resp, httpGet env (Target (config m)) = Ok resp /\ 0 < StatusCode resp.
Proof.
  unfold httpCheck. destruct (httpGet env _) as [resp|err].
  - rewrite Z.ltb_lt. split.
    + intros H. exists resp. split; [reflexivity|exact H].
    + intros [resp' [[= <-] H]]. exact H.
  - split; [discriminate|]. intros [resp [H _]]. discriminate H.
Qed.

(** C4. [httpCheck] and [ping] are total functions into [bool]: whatever
    the transport answers, the caller gets a boolean and no error.  When
    the transport fails (the GET returns an error, for a URL target
    through [ping] as well; the [ping] command ends with an error, for
    any other target), that boolean is [false]. *)
Theorem probe_failure_is_unreachable (m : Monitor) (env : Env) :
  (forall err,
      httpGet env (Target (config m)) = Err err -> httpCheck m env = false)
  /\ (forall err,
        isHTTPTarget (Target (config m)) = true ->
        httpGet env (Target (config m)) = Err err -> ping m env = false)
  /\ (forall err,
        isHTTPTarget (Target (config m)) = false ->
        run env (pingCommand (Target (config m))) = Some err ->
        ping m env = false).
Proof.
  unfold ping, httpCheck, isHTTPTarget, pingCommand.
  split; [|split]; intros err.
  - intros ->. reflexivity.
  - intros -> ->. reflexivity.
  - intros -> ->. reflexivity.
Qed.

Lemma probe_failure_is_unreachable_witness :
  httpCheck (newMonitor cfgURL) (world false 0 true) = false
  /\ ping (newMonitor cfgURL) (world false 0 true) = false
  /\ ping (newMonitor cfgHost) (world false 0 true) = false.
Proof.
  destruct (probe_failure_is_unreachable (newMonitor cfgURL) (world false 0 true))
    as [Hhttp [Hurl _]].
  destruct (probe_failure_is_unreachable (newMonitor cfgHost) (world false 0 true))
    as [_ [_ Hhost]].
  split; [|split].
  - exact (Hhttp Timeout eq_refl).
  - exact (Hurl Timeout eq_refl eq_refl).
  - exact (Hhost (ExitError 1) eq_refl eq_refl).
Defined.

(** Every status code above zero, the client and server errors among
    them, counts as reachable. *)
Lemma httpCheck_positive_status (m : Monitor) (env : Env) (resp : Response) :
  httpGet env (Target (config m)) = Ok resp ->
  0 < StatusCode resp ->
  httpCheck m env = true.
Proof.
  intros Hget Hpos. apply httpCheck_true_iff. exists resp. split; assumption.
Qed.

(** C5, on the code. A response with status 403 counts as reachable, but
    [httpCheck] tests [resp.StatusCode > 0]: a response whose status line
    carries the code [000], which the HTTP client parses to [0] and hands
    over without an error, counts as unreachable although a response was
    received. *)
Theorem httpCheck_status_403_and_000 :
  httpGet (server 403) (Target cfgURL) = Ok {| StatusCode := 403 |}
  /\ httpCheck (newMonitor cfgURL) (server 403) = true
  /\ httpGet (server 0) (Target cfgURL) = Ok {| StatusCode := 0 |}
  /\ httpCheck (newMonitor cfgURL) (server 0) = false
  /\ ping (newMonitor cfgURL) (server 0) = false.
Proof. repeat split. Qed.

(** ** The command loop *)

Lemma wrap64_in_range (z : Z) :
  Go.minInt64 <= z <= Go.maxInt64 -> Go.wrap64 z = z.
Proof.
  unfold Go.wrap64, Go.minInt64, Go.maxInt64. intros H.
  rewrite Z.mod_small; lia.
Qed.

Lemma last_cons {A : Type} (l : list A) :
  forall a d : A, last (a :: l) d = last l a.
Proof.
  induction l as [|b l IH]; intros a d; [reflexivity|].
  change (last (a :: b :: l) d) with (last (b :: l) d).
  rewrite !IH. reflexivity.
Qed.

Lemma ranged_app (evs evs' : list event) :
  ranged (evs ++ evs') = (ranged evs ++ ranged evs')%list.
Proof. apply flat_map_app. Qed.

Lemma ranged_replyToChat (m : Monitor) post (chatID message : string) :
  ranged (replyToChat m post chatID message) = [].
Proof. unfold replyToChat. destruct (post _ _); reflexivity. Qed.

Section CommandLoopFacts.

Variable TrimSpace : string -> string.

Lemma handleUpdate_offset (e : UpdateEnv) (update : TelegramUpdate) :
  fst (handleUpdate TrimSpace e update) = Go.wrap64 (UpdateID update + 1).
Proof. unfold handleUpdate. destruct (Message update); reflexivity. Qed.

Lemma handleUpdate_ranged (e : UpdateEnv) (update : TelegramUpdate) :
  ranged (snd (handleUpdate TrimSpace e update)) = [UpdateID update].
Proof.
  unfold handleUpdate. destruct (Message update) as [message|]; [|reflexivity].
  cbn [snd]. rewrite ranged_app. cbn [ranged flat_map app].
  repeat match goal with
         | |- context [if ?b then _ else _] => destruct b
         end;
    rewrite ?ranged_app, ?ranged_replyToChat; reflexivity.
Qed.

Lemma rangeUpdates_ranged (h : nat -> UpdateEnv)
  (updates : list TelegramUpdate) :
  forall (i : nat) (offset : Z),
    ranged (snd (rangeUpdates TrimSpace h i offset updates))
    = map UpdateID updates.
Proof.
  induction updates as [|update rest IH]; intros i offset; [reflexivity|].
  cbn [rangeUpdates map].
  pose proof (handleUpdate_ranged (h i) update) as Hr.
  destruct (handleUpdate TrimSpace (h i) update) as [offset1 evs].
  specialize (IH (S i) offset1).
  destruct (rangeUpdates TrimSpace h (S i) offset1 rest) as [offset2 evs'].
  cbn [snd] in *. rewrite ranged_app, Hr, IH. reflexivity.
Qed.

(** The cursor after an answer is one past its last update. *)
Lemma rangeUpdates_offset (h : nat -> UpdateEnv)
  (updates : list TelegramUpdate) :
  forall (i : nat) (offset : Z),
    fst (rangeUpdates TrimSpace h i offset updates)
    = match updates with
      | [] => offset
      | update :: rest => Go.wrap64 (UpdateID (last rest update) + 1)
      end.
Proof.
  induction updates as [|update rest IH]; intros i offset; [reflexivity|].
  cbn [rangeUpdates].
  pose proof (handleUpdate_offset (h i) update) as Ho.
  destruct (handleUpdate TrimSpace (h i) update) as [offset1 evs].
  specialize (IH (S i) offset1).
  destruct (rangeUpdates TrimSpace h (S i) offset1 rest) as [offset2 evs'].
  cbn [fst] in *. subst offset1. rewrite IH.
  destruct rest as [|next rest']; [reflexivity|].
  rewrite last_cons. reflexivity.
Qed.

Lemma runBotTurn_first_event (m : Monitor) (env : BotEnv) (offset : Z) :
  hd_error (snd (runBotTurn TrimSpace m env offset))
  = Some (polled (BotToken (config m)) offset).
Proof.
  unfold runBotTurn, getUpdates.
  destruct (poll env offset) as [updates|err]; [|reflexivity].
  destruct (rangeUpdates _ _ _ _ _). reflexivity.
Qed.

Lemma runBotTurn_ranged (m : Monitor) (env : BotEnv) (offset : Z) :
  ranged (snd (runBotTurn TrimSpace m env offset))
  = match poll env offset with
    | Ok updates => map UpdateID updates
    | Err _ => []
    end.
Proof.
  unfold runBotTurn, getUpdates.
  destruct (poll env offset) as [updates|err]; [|reflexivity].
  pose proof (rangeUpdates_ranged (handler env) updates 0 offset) as Hr.
  destruct (rangeUpdates _ _ _ _ _) as [offset' evs]. cbn [snd] in *.
  cbn [app]. change (ranged (?e :: ?l)) with (ranged [e] ++ ranged l)%list.
  rewrite ranged_app, Hr. cbn. apply app_nil_r.
Qed.

Lemma runBotTurn_offset (m : Monitor) (env : BotEnv) (offset : Z) :
  fst (runBotTurn TrimSpace m env offset)
  = match poll env offset with
    | Ok [] => offset
    | Ok (update :: rest) => Go.wrap64 (UpdateID (last rest update) + 1)
    | Err _ => offset
    end.
Proof.
  unfold runBotTurn, getUpdates.
  destruct (poll env offset) as [updates|err]; [|reflexivity].
  pose proof (rangeUpdates_offset (handler env) updates 0 offset) as Ho.
  destruct (rangeUpdates _ _ _ _ _) as [offset' evs]. exact Ho.
Qed.

End CommandLoopFacts.

(** Strictly increasing lists, end to end. *)
Lemma StronglySorted_lt_app (l l' : list Z) (bound : Z) :
  StronglySorted Z.lt l ->
  StronglySorted Z.lt l' ->
  Forall (fun id => id < bound) l ->
  Forall (fun id => bound <= id) l' ->
  StronglySorted Z.lt (l ++ l').
Proof.
  intros Hl Hl' Hlt Hge. induction Hl as [|a l Hl IH Ha]; [exact Hl'|].
  cbn [app]. inversion Hlt as [|? ? Hab Hlt']; subst.
  constructor; [apply IH; exact Hlt'|].
  apply Forall_app. split; [exact Ha|].
  eapply Forall_impl; [|exact Hge]. cbn. intros; lia.
Qed.

Lemma StronglySorted_lt_NoDup (l : list Z) :
  StronglySorted Z.lt l -> NoDup l.
Proof.
  induction 1 as [|a l Hl IH Ha]; constructor; [|exact IH].
  intros Hin. rewrite Forall_forall in Ha. specialize (Ha a Hin). lia.
Qed.

(** After an answer that keeps the protocol the cursor is past every
    update of the answer, and not below where it was. *)
Lemma cursor_after_increasing (updates : list TelegramUpdate) :
  forall offset : Z,
    Go.minInt64 <= offset ->
    increasingFrom offset (map UpdateID updates) ->
    let offset' :=
      match updates with
      | [] => offset
      | update :: rest => Go.wrap64 (UpdateID (last rest update) + 1)
      end in
    offset <= offset'
    /\ Forall (fun id => id < offset') (map UpdateID updates).
Proof.
  induction updates as [|update rest IH]; intros offset Hmin [Hs Hr].
  - cbn. split; [lia|constructor].
  - cbn [map] in Hs, Hr. inversion Hs as [|? ? Hs' Hlt]; subst.
    inversion Hr as [|? ? Hu Hr']; subst. cbv zeta.
    destruct rest as [|next rest'].
    + cbn [last map]. rewrite wrap64_in_range by lia.
      split; [lia|]. constructor; [lia|constructor].
    + rewrite last_cons.
      assert (Hinc : increasingFrom (UpdateID update + 1)
                                    (map UpdateID (next :: rest'))).
      { split; [exact Hs'|].
        rewrite Forall_forall in Hlt, Hr'. apply Forall_forall.
        intros id Hid. specialize (Hlt id Hid). specialize (Hr' id Hid). lia. }
      destruct (IH (UpdateID update + 1) ltac:(lia) Hinc) as [Hle Hall].
      split; [lia|]. constructor; [lia|exact Hall].
Qed.

Section CursorFacts.

Variable TrimSpace : string -> string.

Lemma runBotFrom_increasing (m : Monitor) (envs : list BotEnv) :
  forall offset : Z,
    Go.minInt64 <= offset ->
    Forall honours envs ->
    let ids := ranged (snd (runBotFrom TrimSpace m envs offset)) in
    StronglySorted Z.lt ids /\ Forall (fun id => offset <= id) ids.
Proof.
  induction envs as [|env envs IH]; intros offset Hmin Hh.
  - cbn. split; constructor.
  - inversion Hh as [|? ? Henv Hh']; subst. cbn [runBotFrom].
    pose proof (runBotTurn_ranged TrimSpace m env offset) as Hr.
    pose proof (runBotTurn_offset TrimSpace m env offset) as Ho.
    destruct (runBotTurn TrimSpace m env offset) as [offset1 evs].
    cbn [fst snd] in Hr, Ho.
    assert (Hturn : offset <= offset1
                    /\ increasingFrom offset (ranged evs)
                    /\ Forall (fun id => id < offset1) (ranged evs)).
    { rewrite Hr, Ho. destruct (poll env offset) as [updates|err] eqn:Hp.
      - pose proof (Henv offset updates Hp) as Hinc.
        destruct (cursor_after_increasing updates offset Hmin Hinc) as [Hle Hall].
        destruct updates; (split; [exact Hle|split; [exact Hinc|exact Hall]]).
      - split; [lia|]. split; [split|]; constructor. }
    destruct Hturn as [Hle [[Hs Hge] Hlt]].
    specialize (IH offset1 ltac:(lia) Hh').
    destruct (runBotFrom TrimSpace m envs offset1) as [offset2 evs'].
    cbv zeta in IH |- *. cbn [snd] in IH |- *. destruct IH as [Hs' Hge'].
    rewrite ranged_app. split.
    + eapply StronglySorted_lt_app; eassumption.
    + apply Forall_app. split.
      * eapply Forall_impl; [|exact Hge]. cbn. intros; lia.
      * eapply Forall_impl; [|exact Hge']. cbn. intros; lia.
Qed.

End CursorFacts.

(** C7, as stated, fails under duplicate answers: the loop never compares
    an update with its cursor, so when the poll source answers two polls
    with the same commands 5, 6 and 7, the second poll asking for offset
    8, each of them is handled, and answered, a second time. *)
Lemma runBot_duplicate_answers_counterexample :
  let evs := snd (runBot Go.TrimSpaceASCII (newMonitor cfgHost)
                    [repeating; repeating]) in
  In (polled "TOKEN" 8) evs
  /\ ranged evs = [5; 6; 7; 5; 6; 7]
  /\ ~ NoDup (ranged evs)
  /\ count_occ string_dec
       (flat_map (fun e => match e with
                           | PostForm _ [_; (_, text)] => [text]
                           | _ => []
                           end) evs)
       "Checking now..." = 2%nat.
Proof.
  cbv zeta. split; [|split; [|split]].
  - vm_compute. tauto.
  - vm_compute. reflexivity.
  - intros H. vm_compute in H.
    inversion H as [|? ? Hnotin _]; subst. apply Hnotin. cbn. tauto.
  - vm_compute. reflexivity.
Qed.

(** C7, amended. After an answer whose updates carry the identifiers 5, 6
    and 7 the cursor is 8, one past the last, and 8 is the offset the next
    poll asks for.  The loop itself drops nothing: no update is handled
    twice as long as every answer keeps the offset protocol, that is,
    holds only updates at or above the offset asked for, in strictly
    increasing order, with identifiers below the largest [int]
    (2^63 - 1, past which the cursor wraps). *)
Theorem runBot_cursor_past_handled
  (TrimSpace : string -> string) (m : Monitor) :
  (forall env offset updates,
      poll env offset = Ok updates ->
      map UpdateID updates = [5; 6; 7] ->
      fst (runBotTurn TrimSpace m env offset) = 8
      /\ forall next,
           hd_error (snd (runBotTurn TrimSpace m next
                            (fst (runBotTurn TrimSpace m env offset))))
           = Some (polled (BotToken (config m)) 8))
  /\ (forall envs,
        Forall honours envs ->
        NoDup (ranged (snd (runBot TrimSpace m envs)))).
Proof.
  split.
  - intros env offset updates Hp Hids.
    assert (Ho : fst (runBotTurn TrimSpace m env offset) = 8).
    { rewrite runBotTurn_offset, Hp.
      destruct updates as [|u5 [|u6 [|u7 [|u8 rest]]]]; try discriminate Hids.
      injection Hids as H5 H6 H7. cbn [last]. rewrite H7. reflexivity. }
    split; [exact Ho|]. intros next. rewrite Ho.
    apply runBotTurn_first_event.
  - intros envs Hh. apply StronglySorted_lt_NoDup. unfold runBot.
    apply (runBotFrom_increasing TrimSpace m envs 0); [|exact Hh].
    unfold Go.minInt64. lia.
Qed.

(** A source that answers with the pending updates at or above the
    offset keeps the protocol when its updates are in increasing
    order. *)
Lemma inbox_honours (updates : list TelegramUpdate) :
  StronglySorted Z.lt (map UpdateID updates) ->
  Forall (fun id => id < Go.maxInt64) (map UpdateID updates) ->
  honours (inbox updates).
Proof.
  intros Hs Hb offset answer [= <-]. split.
  - induction updates as [|u rest IH]; [constructor|].
    cbn [map] in Hs, Hb. inversion Hs as [|? ? Hs' Hlt]; subst.
    inversion Hb as [|? ? _ Hb']; subst. cbn [filter].
    destruct (offset <=? UpdateID u); [|apply IH; assumption].
    cbn [map]. constructor; [apply IH; assumption|].
    rewrite Forall_forall in Hlt |- *. intros id Hid. apply Hlt.
    apply in_map_iff in Hid as [v [<- Hv]]. apply filter_In in Hv as [Hv _].
    apply in_map. exact Hv.
  - rewrite Forall_forall in Hb |- *. intros id Hid.
    apply in_map_iff in Hid as [v [<- Hv]]. apply filter_In in Hv as [Hv Hle].
    apply Z.leb_le in Hle. split; [exact Hle|].
    apply Hb. apply in_map. exact Hv.
Qed.

Lemma runBot_cursor_past_handled_witness :
  let pending := [command 5 "/status"; command 6 "hello"; command 7 "/ping"] in
  let m := newMonitor cfgHost in
  (fst (runBotTurn Go.TrimSpaceASCII m (inbox pending) 0) = 8
   /\ hd_error (snd (runBotTurn Go.TrimSpaceASCII m (inbox pending)
                       (fst (runBotTurn Go.TrimSpaceASCII m (inbox pending) 0))))
      = Some (polled "TOKEN" 8))
  /\ NoDup (ranged (snd (runBot Go.TrimSpaceASCII m
                           [inbox pending; inbox pending; inbox pending]))).
Proof.
  cbv zeta.
  destruct (runBot_cursor_past_handled Go.TrimSpaceASCII (newMonitor cfgHost))
    as [Hcursor Hnodup].
  assert (Hh : honours (inbox [command 5 "/status"; command 6 "hello";
                               command 7 "/ping"])).
  { apply inbox_honours.
    - repeat constructor; vm_compute; reflexivity.
    - repeat constructor; vm_compute; reflexivity. }
  split.
  - destruct (Hcursor (inbox [command 5 "/status"; command 6 "hello";
                              command 7 "/ping"])
                0 _ eq_refl eq_refl) as [H8 Hnext].
    split; [exact H8|]. apply Hnext.
  - apply Hnodup. repeat (apply Forall_cons; [exact Hh|]). apply Forall_nil.
Defined.

Example runBot_three_commands_trace :
  runBot Go.TrimSpaceASCII (newMonitor cfgHost)
    [inbox [command 5 "  /statusfoo "; command 6 "hello"; command 7 "/ping"]]
  = (8,
     [HttpGet "https://api.telegram.org/botTOKEN/getUpdates?offset=0&timeout=30";
      RangeUpdate 5;
      LogPrintf "Received message from chat 42: /statusfoo";
      PostForm "https://api.telegram.org/botTOKEN/sendMessage"
        [("chat_id", "42");
         ("text", getStatus (shared handling) (clock 310) (clock 310))];
      RangeUpdate 6;
      LogPrintf "Received message from chat 42: hello";
      RangeUpdate 7;
      LogPrintf "Received message from chat 42: /ping";
      PostForm "https://api.telegram.org/botTOKEN/sendMessage"
        [("chat_id", "42"); ("text", "Checking now...")];
      GoCheckAndReply "42";
      Sleep 1000000000]).
Proof. vm_compute. reflexivity. Qed.

Example getStatus_text :
  getStatus (shared handling) (clock 310) (clock 310)
  = "Target: example.org" ++ Go.nl ++ "Status: UP 🟢" ++ Go.nl
    ++ "Since: 5m10s ago" ++ Go.nl ++ "Last check: 10s ago".
Proof. vm_compute. reflexivity. Qed.

(** ** The commands *)

Lemma prefix_cons (a : ascii) (p s : string) :
  String.prefix (String a p) s = true ->
  exists s', s = String a s' /\ String.prefix p s' = true.
Proof.
  destruct s as [|b s']; cbn; [discriminate|].
  destruct (ascii_dec a b) as [<-|]; [|discriminate].
  intros H. exists s'. split; [reflexivity|exact H].
Qed.

(** No text starts with two of the three commands: the order of the
    tests in [runBot] decides nothing. *)
Lemma start_not_status (text : string) :
  Go.HasPrefix text "/start" = true -> Go.HasPrefix text "/status" = false.
Proof.
  unfold Go.HasPrefix. intros H.
  do 5 (apply prefix_cons in H as [? [-> H]]). reflexivity.
Qed.

Lemma ping_not_status (text : string) :
  Go.HasPrefix text "/ping" = true -> Go.HasPrefix text "/status" = false.
Proof.
  unfold Go.HasPrefix. intros H.
  do 2 (apply prefix_cons in H as [? [-> H]]). reflexivity.
Qed.

Lemma ping_not_start (text : string) :
  Go.HasPrefix text "/ping" = true -> Go.HasPrefix text "/start" = false.
Proof.
  unfold Go.HasPrefix. intros H.
  do 2 (apply prefix_cons in H as [? [-> H]]). reflexivity.
Qed.

Lemma replyToChat_replied (m : Monitor) post (chatID message : string) :
  replied m chatID message (replyToChat m post chatID message).
Proof.
  unfold replied, replyToChat. destruct (post _ _); left; reflexivity.
Qed.

(** C10. A message is matched by the start of its trimmed text: one that
    starts with [/status] is answered with the status report, one that
    starts with [/start] with the summary that names the chat, one that
    starts with [/ping] with the acknowledgement, and the check is
    started; nothing is posted exactly when the text starts with none of
    the three. *)
Theorem handleUpdate_matches_prefix
  (TrimSpace : string -> string) (e : UpdateEnv)
  (update : TelegramUpdate) (message : MessageT) :
  Message update = Some message ->
  let m := shared e in
  let text := TrimSpace (Text message) in
  let chatID := Go.FormatInt (ID (Chat message)) in
  let evs := snd (handleUpdate TrimSpace e update) in
  (Go.HasPrefix text "/status" = true ->
   replied m chatID (getStatus m (since1 e) (since2 e)) evs)
  /\ (Go.HasPrefix text "/start" = true ->
      replied m chatID (startText chatID) evs)
  /\ (Go.HasPrefix text "/ping" = true ->
      replied m chatID "Checking now..." evs
      /\ In (GoCheckAndReply chatID) evs)
  /\ ((forall url form, ~ In (PostForm url form) evs) <->
      Go.HasPrefix text "/status" = false
      /\ Go.HasPrefix text "/start" = false
      /\ Go.HasPrefix text "/ping" = false).
Proof.
  intros Hmsg m text chatID evs. unfold evs, handleUpdate. rewrite Hmsg.
  fold m text chatID. cbn [snd].
  pose proof (replyToChat_replied m (reply e) chatID) as Hreply.
  unfold replied in *.
  split; [|split; [|split]].
  - intros ->. right. right. apply Hreply.
  - intros Hstart. rewrite (start_not_status _ Hstart), Hstart.
    right. right. apply Hreply.
  - intros Hping.
    rewrite (ping_not_status _ Hping), (ping_not_start _ Hping), Hping.
    cbn [app].
    split; right; right; apply in_or_app; [left; apply Hreply|right; left; reflexivity].
  - split.
    + intros Hnone.
      destruct (Go.HasPrefix text "/status") eqn:H1;
        [exfalso; eapply Hnone; right; right; apply Hreply|].
      destruct (Go.HasPrefix text "/start") eqn:H2;
        [exfalso; eapply Hnone; right; right; apply Hreply|].
      destruct (Go.HasPrefix text "/ping") eqn:H3;
        [exfalso; eapply Hnone; cbn [app]; right; right; apply in_or_app; left;
         apply Hreply|].
      repeat split.
    + intros [-> [-> ->]] url form [H|[H|[]]]; discriminate H.
Qed.

Lemma handleUpdate_matches_prefix_witness :
  let m := shared handling in
  let evs text := snd (handleUpdate Go.TrimSpaceASCII handling (command 9 text)) in
  Go.TrimSpaceASCII "  /statusfoo " = "/statusfoo"
  /\ replied m "42" (getStatus m (clock 310) (clock 310)) (evs "  /statusfoo ")
  /\ replied m "42" (startText "42") (evs "/start@monitor_bot")
  /\ (replied m "42" "Checking now..." (evs "/pingpong")
      /\ In (GoCheckAndReply "42") (evs "/pingpong"))
  /\ (forall url form, ~ In (PostForm url form) (evs "status")).
Proof.
  cbv zeta. split; [reflexivity|].
  pose proof (fun text =>
                handleUpdate_matches_prefix Go.TrimSpaceASCII handling
                  (command 9 text)
                  {| Text := text; Chat := {| ID := 42 |} |} eq_refl) as H.
  cbv zeta in H.
  destruct (H "  /statusfoo ") as [Hstatus _].
  destruct (H "/start@monitor_bot") as [_ [Hstart _]].
  destruct (H "/pingpong") as [_ [_ [Hping _]]].
  destruct (H "status") as [_ [_ [_ [_ Hnone]]]].
  split; [exact (Hstatus eq_refl)|].
  split; [exact (Hstart eq_refl)|].
  split; [exact (Hping eq_refl)|].
  apply Hnone. repeat split.
Defined.

(** * Further properties of the program *)

(** ** What a check leaves and emits *)

Lemma posted_app (evs evs' : list event) :
  posted (evs ++ evs') = (posted evs ++ posted evs')%list.
Proof. apply flat_map_app. Qed.

(** The events of a check, in full. *)
Lemma check_events (m : Monitor) (env : Env) :
  snd (check m env) =
    if transition m env then
      let msg := checkMessage (ping m env) (Go.IsZero (lastChange m))
                              (Target (config m)) in
      ([LogPrintf ("Status change: " ++ msg); notification m msg] ++
       match fst (sendTelegram m env msg) with
       | Some err =>
           [LogPrintf ("Failed to send Telegram message: " ++ Error err)]
       | None => []
       end)%list
    else
      [LogPrintf ("Ping " ++ Target (config m) ++ ": still "
                  ++ (if ping m env then "UP" else "DOWN"))].
Proof.
  destruct (transition m env) eqn:Ht; [|rewrite (check_steady _ _ Ht); reflexivity].
  revert Ht. unfold transition, check.
  cbn [set_lastCheck set_isUp set_lastChange isUp lastChange config].
  intros ->. rewrite Sub_self. change (Go.Round 0 Go.Second) with 0.
  cbv zeta.
  match goal with
  | |- context [sendTelegram ?m1 env ?msg] =>
      rewrite (sendTelegram_config m1 m env msg eq_refl)
  end.
  unfold checkMessage, backUpMessage.
  destruct (ping m env), (Go.IsZero (lastChange m));
    case_sendTelegram env; reflexivity.
Qed.

Lemma check_posted (m : Monitor) (env : Env) :
  posted (snd (check m env)) =
    if transition m env then
      [telegramForm (config m)
         (checkMessage (ping m env) (Go.IsZero (lastChange m))
                       (Target (config m)))]
    else [].
Proof.
  rewrite check_events. destruct (transition m env); [|reflexivity].
  cbv zeta. rewrite posted_app. cbn [posted flat_map notification app].
  destruct (fst (sendTelegram m env _)); reflexivity.
Qed.

(** X1. Whether or not it detects a transition, a check leaves the probed
    value in [isUp] and its clock reading in [lastCheck], keeps the
    configuration, and either moves [lastChange] to its clock reading or
    leaves it alone. *)
Theorem check_leaves_probe_and_time (m : Monitor) (env : Env) :
  let m' := fst (check m env) in
  isUp m' = ping m env
  /\ lastCheck m' = now env
  /\ config m' = config m
  /\ (lastChange m' = now env \/ lastChange m' = lastChange m).
Proof.
  cbv zeta. rewrite check_isUp, check_lastCheck, check_config, check_lastChange.
  repeat split. destruct (transition m env); [left|right]; reflexivity.
Qed.

Lemma stateBefore_config (cfg : Config) (envs : list Env) (i : nat) :
  config (stateBefore cfg envs i) = cfg.
Proof.
  unfold stateBefore.
  assert (H : forall l m, config (fold_left (fun m env => fst (check m env)) l m)
                          = config m).
  { induction l as [|e l IH]; intros m; [reflexivity|].
    cbn [fold_left]. rewrite IH. apply check_config. }
  rewrite H. reflexivity.
Qed.

(** X2. In a run whose clock never reads Go's zero instant, the first
    check posts the text that says the monitor started, up or down as
    probed; a later check posts nothing when it probes the recorded
    value, and otherwise the text for a target that is down or back up,
    never the start text again. *)
Theorem checks_message_by_position
  (cfg : Config) (envs : list Env) (i : nat) (env : Env) :
  Forall (fun env => Go.IsZero (now env) = false) envs ->
  nth_error envs i = Some env ->
  let m := stateBefore cfg envs i in
  let up := ping m env in
  posted (snd (check m env)) =
    match i with
    | O => [telegramForm cfg (checkMessage up true (Target cfg))]
    | S _ =>
        if Bool.eqb up (isUp m) then []
        else [telegramForm cfg (checkMessage up false (Target cfg))]
    end.
Proof.
  intros Hclock Hi m up. rewrite check_posted.
  assert (Hcfg : config m = cfg) by apply stateBefore_config.
  rewrite Hcfg. unfold transition. fold up.
  destruct i as [|j].
  - unfold m, stateBefore. cbn. rewrite orb_true_r. reflexivity.
  - assert (Hj : (j < List.length envs)%nat).
    { assert (S j < List.length envs)%nat; [|lia].
      apply nth_error_Some. rewrite Hi. discriminate. }
    unfold m. rewrite (stateBefore_lastChange_set cfg envs j Hclock Hj).
    rewrite orb_false_r. fold m. destruct (Bool.eqb up (isUp m)); reflexivity.
Qed.

Lemma checks_message_by_position_witness :
  let envs := [world true 0 true; world true 300 true; world false 600 true;
               world false 900 false; world true 1200 true] in
  posted (snd (check (stateBefore cfgHost envs 0) (world true 0 true)))
    = [[("chat_id", "42");
        ("text", "🟢 Network monitor started. example.org is UP.")]]
  /\ posted (snd (check (stateBefore cfgHost envs 1) (world true 300 true))) = []
  /\ posted (snd (check (stateBefore cfgHost envs 2) (world false 600 true)))
     = [[("chat_id", "42"); ("text", "🔴 example.org is DOWN!")]]
  /\ posted (snd (check (stateBefore cfgHost envs 3) (world false 900 false))) = []
  /\ posted (snd (check (stateBefore cfgHost envs 4) (world true 1200 true)))
     = [[("chat_id", "42");
         ("text", "🟢 example.org is back UP! (was down for 0s)")]].
Proof.
  cbv zeta.
  pose proof (fun i env =>
                checks_message_by_position cfgHost
                  [world true 0 true; world true 300 true; world false 600 true;
                   world false 900 false; world true 1200 true] i env
                  ltac:(repeat constructor)) as H.
  cbv zeta in H.
  split; [exact (H 0%nat _ eq_refl)|].
  split; [exact (H 1%nat _ eq_refl)|].
  split; [exact (H 2%nat _ eq_refl)|].
  split; [exact (H 3%nat _ eq_refl)|].
  exact (H 4%nat _ eq_refl).
Defined.

(** The notifications of the checks that follow a state whose
    [lastChange] is set: one for each probe that differs from the one
    before. *)
Lemma checks_posted_changes (envs : list Env) :
  forall m : Monitor,
    Forall (fun env => Go.IsZero (now env) = false) envs ->
    Go.IsZero (lastChange m) = false ->
    List.length (posted (flat_map snd (checks m envs)))
    = changes (isUp m) (map (ping m) envs).
Proof.
  induction envs as [|env envs IH]; intros m Hclock Hset; [reflexivity|].
  inversion Hclock as [|? ? Hnow Hclock']; subst.
  cbn [checks flat_map map changes]. rewrite posted_app, length_app.
  rewrite check_posted. unfold transition at 1. rewrite Hset, orb_false_r.
  rewrite IH; [|exact Hclock'|].
  - rewrite check_isUp.
    rewrite (map_ext (ping (fst (check m env))) (ping m))
      by (intros e; apply ping_config, check_config).
    destruct (Bool.eqb (ping m env) (isUp m)); reflexivity.
  - rewrite check_lastChange. destruct (transition m env); assumption.
Qed.

(** X3. A run whose clock never reads Go's zero instant posts one
    notification for its first check and one for every later check whose
    probe differs from the probe before it, and no other. *)
Theorem checks_notification_count
  (cfg : Config) (env : Env) (envs : list Env) :
  Forall (fun env => Go.IsZero (now env) = false) (env :: envs) ->
  let m := newMonitor cfg in
  List.length (posted (flat_map snd (checks m (env :: envs))))
  = S (changes (ping m env) (map (ping m) envs)).
Proof.
  intros Hclock m. inversion Hclock as [|? ? Hnow Hclock']; subst.
  cbn [checks flat_map]. rewrite posted_app, length_app, check_posted.
  assert (Ht : transition m env = true) by (unfold transition; apply orb_true_r).
  rewrite Ht. cbn [List.length plus]. f_equal.
  rewrite checks_posted_changes; [|exact Hclock'|].
  - rewrite check_isUp. f_equal. apply map_ext.
    intros e. apply ping_config, check_config.
  - rewrite check_lastChange, Ht. exact Hnow.
Qed.

Lemma checks_notification_count_witness :
  let envs := [world true 300 true; world false 600 true;
               world false 900 false; world true 1200 true] in
  List.length (posted (flat_map snd
                 (checks (newMonitor cfgHost) (world true 0 true :: envs))))
  = 3%nat.
Proof.
  exact (checks_notification_count cfgHost (world true 0 true)
           [world true 300 true; world false 600 true;
            world false 900 false; world true 1200 true]
           ltac:(repeat constructor)).
Defined.

(** X4. [check] takes its clock reading before it takes the lock and
    compares it with nothing: a check that detects no transition and
    whose reading is older than [lastChange] leaves [lastCheck] before
    [lastChange]. *)
Theorem check_stale_clock_breaks_order (m : Monitor) (env : Env) :
  transition m env = false ->
  now env < lastChange m ->
  let m' := fst (check m env) in
  lastCheck m' < lastChange m'.
Proof.
  intros Ht Hlt. cbv zeta. rewrite check_lastCheck, check_lastChange, Ht.
  exact Hlt.
Qed.

Lemma check_stale_clock_breaks_order_witness :
  let m := fst (check (newMonitor cfgHost) (world true 300 true)) in
  let m' := fst (check m (world true 299 true)) in
  lastCheck m' < lastChange m'.
Proof.
  exact (check_stale_clock_breaks_order
           (fst (check (newMonitor cfgHost) (world true 300 true)))
           (world true 299 true) eq_refl eq_refl).
Defined.

(** ** The probe and the two ways to post *)

(** X5. The probe of a URL target is decided by the answer to the GET of
    that URL alone, and never looks at the [ping] command; the probe of
    any other target is decided by the [ping] command with the fixed
    arguments alone, and never makes a request. *)
Theorem ping_reads_one_transport (m : Monitor) (env env' : Env) :
  (isHTTPTarget (Target (config m)) = true ->
   httpGet env (Target (config m)) = httpGet env' (Target (config m)) ->
   ping m env = ping m env')
  /\ (isHTTPTarget (Target (config m)) = false ->
      run env (pingCommand (Target (config m)))
      = run env' (pingCommand (Target (config m))) ->
      ping m env = ping m env').
Proof.
  unfold ping, httpCheck, isHTTPTarget, pingCommand.
  split; intros -> ->; reflexivity.
Qed.

Lemma ping_reads_one_transport_witness :
  run (server 200) (pingCommand (Target cfgURL)) = Some (ExitError 1)
  /\ ping (newMonitor cfgURL) (server 200) = true
  /\ httpGet (server 200) (Target cfgHost) = Ok {| StatusCode := 200 |}
  /\ ping (newMonitor cfgHost) (server 200) = false.
Proof.
  destruct (ping_reads_one_transport (newMonitor cfgURL) (server 200)
              (world true 0 true)) as [Hurl _].
  destruct (ping_reads_one_transport (newMonitor cfgHost) (server 200)
              (world false 0 true)) as [_ Hhost].
  split; [reflexivity|]. split; [exact (Hurl eq_refl eq_refl)|].
  split; [reflexivity|]. exact (Hhost eq_refl eq_refl).
Defined.

(** X6. [sendTelegram] posts exactly one form, to the configured chat,
    and reports success exactly when Telegram answers with status 200:
    a transport error is returned as it is, any other status (another
    2xx as well) as an error that names the status. *)
Theorem sendTelegram_succeeds_iff_200
  (m : Monitor) (env : Env) (message : string) :
  let url := sendMessageURL (BotToken (config m)) in
  let form := telegramForm (config m) message in
  snd (sendTelegram m env message) = [PostForm url form]
  /\ (fst (sendTelegram m env message) = None <->
      exists resp, postForm env url form = Ok resp /\ StatusCode resp = 200)
  /\ (forall err, postForm env url form = Err err ->
      fst (sendTelegram m env message) = Some err)
  /\ (forall resp, postForm env url form = Ok resp -> StatusCode resp <> 200 ->
      fst (sendTelegram m env message)
      = Some (Errorf ("telegram API returned status "
                      ++ Go.FormatInt (StatusCode resp)))).
Proof.
  cbv zeta. unfold sendTelegram, telegramForm.
  destruct (postForm env _ _) as [resp|err] eqn:Hp.
  - destruct (StatusCode resp =? 200) eqn:Hs; cbn [negb fst snd].
    + apply Z.eqb_eq in Hs. split; [reflexivity|]. split; [|split].
      * split; [intros _; exists resp; split; [reflexivity|exact Hs]|reflexivity].
      * intros err H; discriminate H.
      * intros resp' [= <-] Hne. contradiction.
    + apply Z.eqb_neq in Hs. split; [reflexivity|]. split; [|split].
      * split; [discriminate|]. intros [resp' [[= <-] H200]]. contradiction.
      * intros err H; discriminate H.
      * intros resp' [= <-] _. reflexivity.
  - cbn [fst snd]. split; [reflexivity|]. split; [|split].
    + split; [discriminate|]. intros [resp [H _]]. discriminate H.
    + intros err' [= <-]. reflexivity.
    + intros resp H. discriminate H.
Qed.

Lemma sendTelegram_succeeds_iff_200_witness :
  let env := withPostForm (world true 0 true)
               (fun _ _ => Ok {| StatusCode := 201 |}) in
  sendTelegram (newMonitor cfgHost) env "hello"
  = (Some (Errorf "telegram API returned status 201"),
     [PostForm "https://api.telegram.org/botTOKEN/sendMessage"
        [("chat_id", "42"); ("text", "hello")]]).
Proof.
  cbv zeta.
  destruct (sendTelegram_succeeds_iff_200 (newMonitor cfgHost)
              (withPostForm (world true 0 true)
                 (fun _ _ => Ok {| StatusCode := 201 |})) "hello")
    as [Hev [_ [_ Hstatus]]].
  cbv zeta in Hev, Hstatus.
  specialize (Hstatus {| StatusCode := 201 |} eq_refl ltac:(discriminate)).
  rewrite (surjective_pairing (sendTelegram _ _ _)), Hev, Hstatus.
  reflexivity.
Defined.

(** X7. [replyToChat] posts exactly one form, to the chat it is given,
    and looks at the transport error only: whatever status Telegram
    answers with, nothing is logged; a transport error is logged and
    nothing more happens. *)
Theorem replyToChat_ignores_status
  (m : Monitor) (post : string -> Values -> result Response)
  (chatID message : string) :
  let url := sendMessageURL (BotToken (config m)) in
  let form := [("chat_id", chatID); ("text", message)] in
  (forall resp, post url form = Ok resp ->
     replyToChat m post chatID message = [PostForm url form])
  /\ (forall err, post url form = Err err ->
      replyToChat m post chatID message
      = [PostForm url form; LogPrintf ("Failed to reply: " ++ Error err)])
  /\ posted (replyToChat m post chatID message) = [form].
Proof.
  cbv zeta. unfold replyToChat. destruct (post _ _) as [resp|err].
  - split; [reflexivity|]. split; [intros err H; discriminate H|reflexivity].
  - split; [intros resp H; discriminate H|].
    split; [intros err' [= <-]; reflexivity|reflexivity].
Qed.

Lemma replyToChat_ignores_status_witness :
  replyToChat (newMonitor cfgHost) (fun _ _ => Ok {| StatusCode := 403 |})
    "7" "hello"
  = [PostForm "https://api.telegram.org/botTOKEN/sendMessage"
       [("chat_id", "7"); ("text", "hello")]]
  /\ replyToChat (newMonitor cfgHost) (fun _ _ => Err Timeout) "7" "hello"
     = [PostForm "https://api.telegram.org/botTOKEN/sendMessage"
          [("chat_id", "7"); ("text", "hello")];
        LogPrintf ("Failed to reply: " ++ Error Timeout)].
Proof.
  destruct (replyToChat_ignores_status (newMonitor cfgHost)
              (fun _ _ => Ok {| StatusCode := 403 |}) "7" "hello") as [Hok _].
  destruct (replyToChat_ignores_status (newMonitor cfgHost)
              (fun _ _ => Err Timeout) "7" "hello") as [_ [Herr _]].
  split.
  - exact (Hok {| StatusCode := 403 |} eq_refl).
  - exact (Herr Timeout eq_refl).
Defined.

(** ** More on the command loop *)

Lemma started_app (evs evs' : list event) :
  started (evs ++ evs') = (started evs ++ started evs')%list.
Proof. apply flat_map_app. Qed.

Lemma fetched_app (evs evs' : list event) :
  fetched (evs ++ evs') = (fetched evs ++ fetched evs')%list.
Proof. apply flat_map_app. Qed.

Lemma posted_replyToChat (m : Monitor) post (chatID message : string) :
  posted (replyToChat m post chatID message)
  = [[("chat_id", chatID); ("text", message)]].
Proof. unfold replyToChat. destruct (post _ _); reflexivity. Qed.

Lemma started_replyToChat (m : Monitor) post (chatID message : string) :
  started (replyToChat m post chatID message) = [].
Proof. unfold replyToChat. destruct (post _ _); reflexivity. Qed.

Lemma fetched_replyToChat (m : Monitor) post (chatID message : string) :
  fetched (replyToChat m post chatID message) = [].
Proof. unfold replyToChat. destruct (post _ _); reflexivity. Qed.

Section TurnFacts.

Variable TrimSpace : string -> string.

(** X8. Turns whose polls bring nothing (an error, or an answer without
    updates) leave the cursor where it is: every one of them asks for the
    same offset again, and none posts, starts a goroutine or handles an
    update. *)
Theorem runBotFrom_nothing_received (m : Monitor) (envs : list BotEnv)
  (offset : Z) :
  Forall (fun env => bringsNothing env offset) envs ->
  let evs := snd (runBotFrom TrimSpace m envs offset) in
  fst (runBotFrom TrimSpace m envs offset) = offset
  /\ fetched evs
     = repeat (getUpdatesURL (BotToken (config m)) offset) (List.length envs)
  /\ posted evs = []
  /\ started evs = []
  /\ ranged evs = [].
Proof.
  induction 1 as [|env envs Henv _ IH]; [cbn; repeat split|].
  cbn [runBotFrom].
  assert (Hturn : exists evs,
             runBotTurn TrimSpace m env offset = (offset, evs)
             /\ fetched evs = [getUpdatesURL (BotToken (config m)) offset]
             /\ posted evs = [] /\ started evs = [] /\ ranged evs = []).
  { unfold runBotTurn, getUpdates. unfold bringsNothing in Henv.
    destruct (poll env offset) as [updates|err].
    - subst updates. eexists. split; [reflexivity|]. repeat split.
    - eexists. split; [reflexivity|]. repeat split. }
  destruct Hturn as [evs1 [-> [Hf [Hp [Hs Hr]]]]].
  destruct (runBotFrom TrimSpace m envs offset) as [offset' evs'].
  cbv zeta in IH |- *. cbn [fst snd] in IH |- *.
  destruct IH as [-> [Hf' [Hp' [Hs' Hr']]]].
  rewrite fetched_app, posted_app, started_app, ranged_app.
  rewrite Hf, Hp, Hs, Hr, Hf', Hp', Hs', Hr'. repeat split.
Qed.

End TurnFacts.

Lemma runBotFrom_nothing_received_witness :
  let evs := snd (runBotFrom Go.TrimSpaceASCII (newMonitor cfgHost)
                    [unreachable; inbox []; unreachable] 8) in
  fst (runBotFrom Go.TrimSpaceASCII (newMonitor cfgHost)
         [unreachable; inbox []; unreachable] 8) = 8
  /\ fetched evs
     = repeat "https://api.telegram.org/botTOKEN/getUpdates?offset=8&timeout=30" 3
  /\ posted evs = []
  /\ started evs = []
  /\ ranged evs = [].
Proof.
  exact (runBotFrom_nothing_received Go.TrimSpaceASCII (newMonitor cfgHost)
           [unreachable; inbox []; unreachable] 8
           ltac:(repeat constructor)).
Defined.

Section DispatchFacts.

Variable TrimSpace : string -> string.

(** X9. After an answer with updates the cursor is one past the
    identifier of the last update of the answer, in [int] arithmetic:
    the offset asked for and the identifiers before the last do not
    matter (so the cursor moves back when the last identifier is below
    it), and one past the largest [int] is the smallest. *)
Theorem runBotTurn_cursor_follows_last (m : Monitor) (env : BotEnv)
  (offset : Z) (updates : list TelegramUpdate) (final : TelegramUpdate) :
  poll env offset = Ok (updates ++ [final])%list ->
  let offset' := fst (runBotTurn TrimSpace m env offset) in
  offset' = Go.wrap64 (UpdateID final + 1)
  /\ (Go.minInt64 <= UpdateID final < Go.maxInt64 ->
      offset' = UpdateID final + 1)
  /\ (UpdateID final = Go.maxInt64 -> offset' = Go.minInt64).
Proof.
  intros Hp. cbv zeta. rewrite runBotTurn_offset, Hp.
  assert (Hlast : match (updates ++ [final])%list with
                  | [] => offset
                  | update :: rest => Go.wrap64 (UpdateID (last rest update) + 1)
                  end = Go.wrap64 (UpdateID final + 1)).
  { destruct updates as [|u rest]; [reflexivity|].
    cbn [app]. rewrite last_last. reflexivity. }
  rewrite Hlast. split; [reflexivity|]. split.
  - intros Hr. apply wrap64_in_range. lia.
  - intros ->. reflexivity.
Qed.

(** What one update makes the loop post and start. *)
Lemma handleUpdate_posted_started (e : UpdateEnv) (update : TelegramUpdate) :
  List.length (posted (snd (handleUpdate TrimSpace e update)))
  = (if answered TrimSpace update then 1 else 0)%nat
  /\ List.length (started (snd (handleUpdate TrimSpace e update)))
     = (if asksPing TrimSpace update then 1 else 0)%nat.
Proof.
  unfold handleUpdate, answered, asksPing, isCommand.
  destruct (Message update) as [message|]; [|split; reflexivity].
  cbn [snd]. rewrite posted_app, started_app. cbn [posted started flat_map app].
  destruct (Go.HasPrefix (TrimSpace (Text message)) "/ping") eqn:Hping.
  - rewrite (ping_not_status _ Hping), (ping_not_start _ Hping).
    rewrite posted_app, started_app, posted_replyToChat, started_replyToChat.
    split; reflexivity.
  - destruct (Go.HasPrefix _ "/status"); [|destruct (Go.HasPrefix _ "/start")];
      rewrite ?posted_replyToChat, ?started_replyToChat; split; reflexivity.
Qed.

Lemma rangeUpdates_posted_started (h : nat -> UpdateEnv)
  (updates : list TelegramUpdate) :
  forall (i : nat) (offset : Z),
    let evs := snd (rangeUpdates TrimSpace h i offset updates) in
    List.length (posted evs)
    = List.length (filter (answered TrimSpace) updates)
    /\ List.length (started evs)
       = List.length (filter (asksPing TrimSpace) updates).
Proof.
  induction updates as [|update rest IH]; intros i offset; [split; reflexivity|].
  cbn [rangeUpdates filter].
  destruct (handleUpdate_posted_started (h i) update) as [Hp Hs].
  destruct (handleUpdate TrimSpace (h i) update) as [offset1 evs].
  specialize (IH (S i) offset1).
  destruct (rangeUpdates TrimSpace h (S i) offset1 rest) as [offset2 evs'].
  cbv zeta in IH |- *. cbn [snd] in *. destruct IH as [IHp IHs].
  rewrite posted_app, started_app, !length_app, Hp, Hs, IHp, IHs.
  destruct (answered TrimSpace update), (asksPing TrimSpace update);
    split; reflexivity.
Qed.

(** X10. A turn handles every update of the answer once, in the order of
    the answer, whatever its replies meet; it posts one reply for each
    update that carries a text starting with one of the three commands
    and none for any other, and starts one goroutine for each text that
    starts with [/ping]. *)
Theorem runBotTurn_one_reply_per_command (m : Monitor) (env : BotEnv)
  (offset : Z) (updates : list TelegramUpdate) :
  poll env offset = Ok updates ->
  let evs := snd (runBotTurn TrimSpace m env offset) in
  ranged evs = map UpdateID updates
  /\ List.length (posted evs)
     = List.length (filter (answered TrimSpace) updates)
  /\ List.length (started evs)
     = List.length (filter (asksPing TrimSpace) updates).
Proof.
  intros Hp. cbv zeta. split.
  - rewrite runBotTurn_ranged, Hp. reflexivity.
  - unfold runBotTurn, getUpdates. rewrite Hp.
    destruct (rangeUpdates_posted_started (handler env) updates 0 offset)
      as [Hposted Hstarted].
    destruct (rangeUpdates TrimSpace (handler env) 0 offset updates)
      as [offset' evs].
    cbv zeta in Hposted, Hstarted. cbn [snd] in *.
    rewrite !posted_app, !started_app, !length_app, Hposted, Hstarted.
    cbn. split; lia.
Qed.

(** X11. Neither the state of the monitor nor the fate of the replies
    steers the loop: two turns that receive the same answer to their poll
    end with the same cursor and handle the same updates. *)
Theorem runBotTurn_replies_do_not_steer (m m' : Monitor) (env env' : BotEnv)
  (offset : Z) :
  poll env offset = poll env' offset ->
  fst (runBotTurn TrimSpace m env offset)
  = fst (runBotTurn TrimSpace m' env' offset)
  /\ ranged (snd (runBotTurn TrimSpace m env offset))
     = ranged (snd (runBotTurn TrimSpace m' env' offset)).
Proof.
  intros Hp. rewrite !runBotTurn_offset, !runBotTurn_ranged, Hp.
  split; reflexivity.
Qed.

End DispatchFacts.

Lemma runBotTurn_cursor_follows_last_witness :
  fst (runBotTurn Go.TrimSpaceASCII (newMonitor cfgHost)
         (answering [command 7 "/status"; silent 5]) 8) = 6.
Proof.
  destruct (runBotTurn_cursor_follows_last Go.TrimSpaceASCII
              (newMonitor cfgHost) (answering [command 7 "/status"; silent 5])
              8 [command 7 "/status"] (silent 5) eq_refl) as [_ [Hin _]].
  apply Hin. unfold Go.minInt64, Go.maxInt64. cbn. lia.
Defined.

Lemma runBotTurn_one_reply_per_command_witness :
  let evs := snd (runBotTurn Go.TrimSpaceASCII (newMonitor cfgHost)
                    (answering [command 5 " /ping"; silent 6;
                                command 7 "hello"; command 8 "/start"]) 0) in
  ranged evs = [5; 6; 7; 8]
  /\ List.length (posted evs) = 2%nat
  /\ List.length (started evs) = 1%nat.
Proof.
  exact (runBotTurn_one_reply_per_command Go.TrimSpaceASCII
           (newMonitor cfgHost)
           (answering [command 5 " /ping"; silent 6;
                       command 7 "hello"; command 8 "/start"]) 0 _ eq_refl).
Defined.

Lemma runBotTurn_replies_do_not_steer_witness :
  let failing :=
    {| poll := fun _ => Ok [command 5 "/status"; command 6 "/ping"];
       handler := fun _ =>
         {| shared := newMonitor cfgURL; since1 := clock 0; since2 := clock 0;
            reply := fun _ _ => Err Timeout |} |} in
  fst (runBotTurn Go.TrimSpaceASCII (newMonitor cfgHost) failing 0)
  = fst (runBotTurn Go.TrimSpaceASCII (newMonitor cfgHost)
           (answering [command 5 "/status"; command 6 "/ping"]) 0)
  /\ ranged (snd (runBotTurn Go.TrimSpaceASCII (newMonitor cfgHost) failing 0))
     = ranged (snd (runBotTurn Go.TrimSpaceASCII (newMonitor cfgHost)
                      (answering [command 5 "/status"; command 6 "/ping"]) 0)).
Proof.
  cbv zeta. apply runBotTurn_replies_do_not_steer. reflexivity.
Defined.

Section HonestSource.

Variable TrimSpace : string -> string.

Lemma runBotTurn_honest (m : Monitor) (env : BotEnv) (offset : Z) :
  Go.minInt64 <= offset ->
  honours env ->
  offset <= fst (runBotTurn TrimSpace m env offset)
  /\ Forall (fun id => offset <= id < fst (runBotTurn TrimSpace m env offset))
            (ranged (snd (runBotTurn TrimSpace m env offset))).
Proof.
  intros Hmin Henv. rewrite runBotTurn_ranged, runBotTurn_offset.
  destruct (poll env offset) as [updates|err] eqn:Hp.
  - pose proof (Henv offset updates Hp) as Hinc.
    destruct (cursor_after_increasing updates offset Hmin Hinc) as [Hle Hall].
    destruct Hinc as [_ Hge].
    destruct updates as [|u rest]; (split; [exact Hle|]).
    + constructor.
    + rewrite Forall_forall in Hall, Hge |- *. intros id Hid.
      specialize (Hall id Hid). specialize (Hge id Hid). cbv beta in *. lia.
  - split; [lia|constructor].
Qed.

(** X12. While every answer keeps the offset protocol the cursor never
    moves back, and every update handled lies at or above the offset the
    loop started from and below the cursor it ends with: the next poll
    asks for none of them again. *)
Theorem runBotFrom_cursor_never_back (m : Monitor) (envs : list BotEnv) :
  forall offset : Z,
    Go.minInt64 <= offset ->
    Forall honours envs ->
    let final := fst (runBotFrom TrimSpace m envs offset) in
    offset <= final
    /\ Forall (fun id => offset <= id < final)
              (ranged (snd (runBotFrom TrimSpace m envs offset))).
Proof.
  induction envs as [|env envs IH]; intros offset Hmin Hh.
  - cbn. split; [lia|constructor].
  - inversion Hh as [|? ? Henv Hh']; subst. cbn [runBotFrom].
    destruct (runBotTurn_honest m env offset Hmin Henv) as [Hle Hids].
    destruct (runBotTurn TrimSpace m env offset) as [offset1 evs].
    cbn [fst snd] in Hle, Hids.
    specialize (IH offset1 ltac:(lia) Hh').
    destruct (runBotFrom TrimSpace m envs offset1) as [offset2 evs'].
    cbv zeta in IH |- *. cbn [fst snd] in IH |- *. destruct IH as [Hle' Hids'].
    split; [lia|]. rewrite ranged_app. apply Forall_app. split.
    + eapply Forall_impl; [|exact Hids]. cbv beta. intros; lia.
    + eapply Forall_impl; [|exact Hids']. cbv beta. intros; lia.
Qed.

End HonestSource.

Lemma runBotFrom_cursor_never_back_witness :
  let pending := [command 5 "/status"; silent 9; command 12 "/ping"] in
  let envs := [inbox pending; unreachable; inbox pending] in
  0 <= fst (runBotFrom Go.TrimSpaceASCII (newMonitor cfgHost) envs 0)
  /\ Forall (fun id =>
               0 <= id < fst (runBotFrom Go.TrimSpaceASCII (newMonitor cfgHost)
                                envs 0))
            (ranged (snd (runBotFrom Go.TrimSpaceASCII (newMonitor cfgHost)
                            envs 0))).
Proof.
  cbv zeta.
  assert (Hh : honours (inbox [command 5 "/status"; silent 9;
                               command 12 "/ping"])).
  { apply inbox_honours; repeat constructor; vm_compute; reflexivity. }
  assert (Hu : honours unreachable).
  { intros offset updates H. discriminate H. }
  apply (runBotFrom_cursor_never_back Go.TrimSpaceASCII (newMonitor cfgHost)
           [inbox [command 5 "/status"; silent 9; command 12 "/ping"];
            unreachable;
            inbox [command 5 "/status"; silent 9; command 12 "/ping"]] 0).
  - unfold Go.minInt64. lia.
  - repeat (apply Forall_cons; [first [exact Hh|exact Hu]|]). apply Forall_nil.
Defined.

Example runBotFrom_inbox_handled_once :
  runBotFrom Go.TrimSpaceASCII (newMonitor cfgHost)
    [inbox [command 5 "/status"; silent 9; command 12 "/ping"];
     unreachable;
     inbox [command 5 "/status"; silent 9; command 12 "/ping"]] 0
  = (13,
     snd (runBotFrom Go.TrimSpaceASCII (newMonitor cfgHost)
            [inbox [command 5 "/status"; silent 9; command 12 "/ping"];
             unreachable; inbox []] 0)).
Proof. vm_compute. reflexivity. Qed.

(** ** The status report and the goroutine of [/ping] *)

Lemma prefix_app_same (a b c : string) :
  String.prefix (a ++ b) (a ++ c) = String.prefix b c.
Proof.
  induction a as [|x a IH]; [reflexivity|].
  cbn. destruct (ascii_dec x x) as [_|Hne]; [exact IH|contradiction].
Qed.

Lemma getStatus_line (m : Monitor) (now1 now2 : Go.Time) (b : bool) :
  Go.HasPrefix (getStatus m now1 now2)
    ("Target: " ++ Target (config m) ++ Go.nl
     ++ "Status: " ++ (if b then "UP 🟢" else "DOWN 🔴") ++ Go.nl)
  = Bool.eqb b (isUp m).
Proof.
  unfold Go.HasPrefix, getStatus.
  rewrite (prefix_app_same "Target: "), (prefix_app_same (Target (config m))).
  rewrite (prefix_app_same Go.nl), (prefix_app_same "Status: ").
  destruct b, (isUp m); reflexivity.
Qed.

(** X13. The status report starts with the line that names the target,
    and its second line reads [UP] exactly when the monitor records the
    target as up, [DOWN] exactly when it records it as down. *)
Theorem getStatus_shows_isUp (m : Monitor) (now1 now2 : Go.Time) :
  Go.HasPrefix (getStatus m now1 now2)
    ("Target: " ++ Target (config m) ++ Go.nl ++ "Status: UP 🟢" ++ Go.nl)
  = isUp m
  /\ Go.HasPrefix (getStatus m now1 now2)
       ("Target: " ++ Target (config m) ++ Go.nl ++ "Status: DOWN 🔴" ++ Go.nl)
     = negb (isUp m).
Proof.
  split.
  - refine (eq_trans (getStatus_line m now1 now2 true) _).
    destruct (isUp m); reflexivity.
  - refine (eq_trans (getStatus_line m now1 now2 false) _).
    destruct (isUp m); reflexivity.
Qed.

(** X14. The goroutine of [/ping] posts what its check posts (the
    notification of a transition, to the configured chat) and then one
    report to the chat that asked; the report shows [UP] exactly when the
    check it has just run probed the target up, whether or not that check
    was a transition and whatever became of its notification. *)
Theorem pingGoroutine_reports_its_check (m : Monitor) (env : Env)
  (now1 now2 : Go.Time) (post : string -> Values -> result Response)
  (chatID : string) :
  let m' := fst (pingGoroutine m env now1 now2 post chatID) in
  let evs := snd (pingGoroutine m env now1 now2 post chatID) in
  let report := getStatus m' now1 now2 in
  m' = fst (check m env)
  /\ posted evs
     = (posted (snd (check m env)) ++ [[("chat_id", chatID); ("text", report)]])%list
  /\ List.length (posted evs) = (if transition m env then 2 else 1)%nat
  /\ Go.HasPrefix report
       ("Target: " ++ Target (config m) ++ Go.nl ++ "Status: UP 🟢" ++ Go.nl)
     = ping m env.
Proof.
  cbv zeta. unfold pingGoroutine.
  pose proof (check_isUp m env) as Hup. pose proof (check_config m env) as Hcfg.
  pose proof (check_posted m env) as Hposted.
  destruct (check m env) as [m' evs]. cbn [fst snd] in *.
  split; [reflexivity|]. rewrite posted_app, posted_replyToChat.
  split; [reflexivity|]. split.
  - rewrite length_app, Hposted. destruct (transition m env); reflexivity.
  - rewrite <- Hcfg, <- Hup.
    refine (eq_trans (getStatus_line m' now1 now2 true) _).
    destruct (isUp m'); reflexivity.
Qed.

(** ** Start-up *)

(** X15. [loadConfig] succeeds only when the file was read and decoded,
    and then hands over the decoded configuration with one change: an
    interval of zero (the key was absent, or zero) becomes 300, so that a
    loaded configuration never has the interval zero; any other
    interval, a negative one as well, is kept.  When reading or decoding
    fails, it returns that error and the zero configuration. *)
Theorem loadConfig_interval_never_zero (fs : FileEnv) (path : string) :
  match loadConfig fs path with
  | (cfg, None) =>
      PingInterval cfg <> 0
      /\ exists data decoded,
           readFile fs path = Ok data
           /\ unmarshal fs data = Ok decoded
           /\ Target cfg = Target decoded
           /\ BotToken cfg = BotToken decoded
           /\ ChatID cfg = ChatID decoded
           /\ PingInterval cfg
              = (if PingInterval decoded =? 0 then 300 else PingInterval decoded)
  | (cfg, Some err) =>
      cfg = zeroConfig
      /\ (readFile fs path = Err err
          \/ exists data, readFile fs path = Ok data
                          /\ unmarshal fs data = Err err)
  end.
Proof.
  unfold loadConfig.
  destruct (readFile fs path) as [data|err]; [|split; [reflexivity|left; reflexivity]].
  destruct (unmarshal fs data) as [decoded|err] eqn:Hd.
  - split.
    + destruct (PingInterval decoded =? 0) eqn:Hz; cbn.
      * discriminate.
      * apply Z.eqb_neq. exact Hz.
    + exists data, decoded.
      destruct (PingInterval decoded =? 0); repeat split; assumption.
  - split; [reflexivity|]. right. exists data. split; [reflexivity|exact Hd].
Qed.

Lemma done_Did (evs : list event) : done (map Did evs) = evs.
Proof.
  induction evs as [|e evs IH]; [reflexivity|]. cbn. f_equal. exact IH.
Qed.

Lemma done_app (evs evs' : list mainEvent) :
  done (evs ++ evs') = (done evs ++ done evs')%list.
Proof. apply flat_map_app. Qed.

(** What [main] does once the configuration is loaded. *)
Lemma main_loaded (Args : list string) (fs : FileEnv) (env : Env) (cfg : Config) :
  loadConfig fs (configPath Args) = (cfg, None) ->
  let d := Go.wrap64 (PingInterval cfg * Go.Second) in
  snd (main Args fs env)
  = (if d <=? 0 then Panic "non-positive interval for NewTicker"
     else Ticking (fst (check (newMonitor cfg) env)) d)
  /\ In GoRunBot (fst (main Args fs env))
  /\ In (NewTicker d) (fst (main Args fs env))
  /\ posted (done (fst (main Args fs env)))
     = [telegramForm cfg
          (checkMessage (ping (newMonitor cfg) env) true (Target cfg))].
Proof.
  intros Hload. cbv zeta. unfold main. rewrite Hload.
  pose proof (check_posted (newMonitor cfg) env) as Hposted.
  destruct (check (newMonitor cfg) env) as [monitor evs]. cbn [fst snd] in *.
  split; [reflexivity|]. split; [|split].
  - apply in_or_app. right. left. reflexivity.
  - apply in_or_app. right. right. left. reflexivity.
  - rewrite done_app. cbn [done flat_map app]. rewrite app_nil_r.
    change (flat_map _ (map Did evs)) with (done (map Did evs)).
    rewrite done_Did. cbn [posted flat_map app].
    change (flat_map _ evs) with (posted evs). rewrite Hposted.
    unfold transition. cbn. rewrite orb_true_r. reflexivity.
Qed.

(** X16. With a configuration whose interval lies between one second and
    9223372036 seconds, [main] posts the start notification of its first
    check, starts the command loop and enters the ticker loop with a
    period of exactly that many seconds, the monitor being as the first
    check left it. *)
Theorem main_ticks_every_interval
  (Args : list string) (fs : FileEnv) (env : Env) (cfg : Config) :
  loadConfig fs (configPath Args) = (cfg, None) ->
  0 < PingInterval cfg <= 9223372036 ->
  snd (main Args fs env)
  = Ticking (fst (check (newMonitor cfg) env)) (PingInterval cfg * Go.Second)
  /\ In GoRunBot (fst (main Args fs env))
  /\ posted (done (fst (main Args fs env)))
     = [telegramForm cfg
          (checkMessage (ping (newMonitor cfg) env) true (Target cfg))].
Proof.
  intros Hload Hrange.
  destruct (main_loaded Args fs env cfg Hload) as [Hout [Hgo [_ Hposted]]].
  cbv zeta in Hout.
  rewrite wrap64_in_range in Hout
    by (unfold Go.minInt64, Go.maxInt64, Go.Second; lia).
  replace (PingInterval cfg * Go.Second <=? 0) with false in Hout
    by (symmetry; apply Z.leb_gt; unfold Go.Second; lia).
  split; [exact Hout|]. split; [exact Hgo|exact Hposted].
Qed.

Lemma main_ticks_every_interval_witness :
  let fs := oneFile "config.json"
              {| Target := "example.org"; BotToken := "TOKEN"; ChatID := "42";
                 PingInterval := 0 |} in
  snd (main ["network-monitor"] fs (world true 0 true))
  = Ticking (fst (check (newMonitor cfgHost) (world true 0 true)))
            (300 * Go.Second)
  /\ In GoRunBot (fst (main ["network-monitor"] fs (world true 0 true)))
  /\ posted (done (fst (main ["network-monitor"] fs (world true 0 true))))
     = [[("chat_id", "42");
         ("text", "🟢 Network monitor started. example.org is UP.")]].
Proof.
  cbv zeta.
  apply (main_ticks_every_interval ["network-monitor"]
           (oneFile "config.json"
              {| Target := "example.org"; BotToken := "TOKEN"; ChatID := "42";
                 PingInterval := 0 |})
           (world true 0 true) cfgHost eq_refl).
  cbn. lia.
Defined.

(** X17. [loadConfig] lets a negative interval through, and for an
    interval from -9223372036 to -1 seconds (where the product with
    [time.Second] stays in the range of [int64]) [main] meets it only in
    [time.NewTicker], which panics: by then the first check has run, its
    start notification is posted and the command loop is started. *)
Theorem main_negative_interval_panics_late
  (Args : list string) (fs : FileEnv) (env : Env) (cfg : Config) :
  loadConfig fs (configPath Args) = (cfg, None) ->
  - 9223372036 <= PingInterval cfg < 0 ->
  snd (main Args fs env) = Panic "non-positive interval for NewTicker"
  /\ In GoRunBot (fst (main Args fs env))
  /\ In (NewTicker (PingInterval cfg * Go.Second)) (fst (main Args fs env))
  /\ posted (done (fst (main Args fs env)))
     = [telegramForm cfg
          (checkMessage (ping (newMonitor cfg) env) true (Target cfg))].
Proof.
  intros Hload Hrange.
  destruct (main_loaded Args fs env cfg Hload) as [Hout [Hgo [Htick Hposted]]].
  cbv zeta in Hout, Htick.
  rewrite wrap64_in_range in Hout, Htick
    by (unfold Go.minInt64, Go.maxInt64, Go.Second; lia).
  replace (PingInterval cfg * Go.Second <=? 0) with true in Hout
    by (symmetry; apply Z.leb_le; unfold Go.Second; lia).
  split; [exact Hout|]. split; [exact Hgo|]. split; [exact Htick|exact Hposted].
Qed.

Lemma main_negative_interval_panics_late_witness :
  let cfg := {| Target := "example.org"; BotToken := "TOKEN"; ChatID := "42";
                PingInterval := - 5 |} in
  let fs := oneFile "/etc/monitor.json" cfg in
  let Args := ["network-monitor"; "/etc/monitor.json"] in
  snd (main Args fs (world false 0 true))
  = Panic "non-positive interval for NewTicker"
  /\ In GoRunBot (fst (main Args fs (world false 0 true)))
  /\ In (NewTicker (- 5 * Go.Second)) (fst (main Args fs (world false 0 true)))
  /\ posted (done (fst (main Args fs (world false 0 true))))
     = [[("chat_id", "42");
         ("text", "🔴 Network monitor started. example.org is DOWN!")]].
Proof.
  cbv zeta.
  apply (main_negative_interval_panics_late
           ["network-monitor"; "/etc/monitor.json"]
           (oneFile "/etc/monitor.json"
              {| Target := "example.org"; BotToken := "TOKEN"; ChatID := "42";
                 PingInterval := - 5 |})
           (world false 0 true)
           {| Target := "example.org"; BotToken := "TOKEN"; ChatID := "42";
              PingInterval := - 5 |} eq_refl).
  cbn. lia.
Defined.

(** X18. When the configuration cannot be loaded (the file named by the
    first argument, or [config.json] without one, cannot be read or
    decoded), [main] logs the error and leaves with status 1: it runs no
    check, posts nothing and starts no command loop. *)
Theorem main_config_error_is_fatal
  (Args : list string) (fs : FileEnv) (env : Env) (err : error) :
  readFile fs (configPath Args) = Err err
  \/ (exists data, readFile fs (configPath Args) = Ok data
                   /\ unmarshal fs data = Err err) ->
  main Args fs env
  = ([Did (LogPrintf ("Failed to load config: " ++ Error err)); Exit 1], Fatal)
  /\ posted (done (fst (main Args fs env))) = []
  /\ ~ In GoRunBot (fst (main Args fs env)).
Proof.
  intros Hfail.
  assert (Hmain : main Args fs env
                  = ([Did (LogPrintf ("Failed to load config: " ++ Error err));
                      Exit 1], Fatal)).
  { unfold main, loadConfig.
    destruct Hfail as [->|[data [-> ->]]]; reflexivity. }
  rewrite Hmain. split; [reflexivity|]. split; [reflexivity|].
  cbn. intros [H|[H|[]]]; discriminate H.
Qed.

Lemma main_config_error_is_fatal_witness :
  let fs := oneFile "/etc/monitor.json" cfgHost in
  main ["network-monitor"] fs (world true 0 true)
  = ([Did (LogPrintf "Failed to load config: no such file or directory");
      Exit 1], Fatal)
  /\ posted (done (fst (main ["network-monitor"] fs (world true 0 true)))) = []
  /\ ~ In GoRunBot (fst (main ["network-monitor"] fs (world true 0 true))).
Proof.
  cbv zeta.
  apply (main_config_error_is_fatal ["network-monitor"]
           (oneFile "/etc/monitor.json" cfgHost) (world true 0 true)
           (Errorf "no such file or directory")).
  left. reflexivity.
Defined.

(** Beyond 9223372036 seconds the product with [time.Second] leaves the
    range of [int64]: an interval of 18446744074 seconds makes a ticker
    of less than a third of a second. *)
Example main_interval_wraps :
  match snd (main ["network-monitor"]
               (oneFile "config.json"
                  {| Target := "example.org"; BotToken := "TOKEN";
                     ChatID := "42"; PingInterval := 18446744074 |})
               (world true 0 true)) with
  | Ticking _ d => d = 290448384
  | _ => False
  end.
Proof. vm_compute. reflexivity. Qed.

(** An update with the largest identifier sends the cursor to the
    smallest [int]: a source that answers with the updates at or above
    the offset then delivers it again, and the loop handles it again. *)
Example runBot_cursor_wraps_at_maxInt64 :
  runBotTurn Go.TrimSpaceASCII (newMonitor cfgHost)
    (inbox [silent Go.maxInt64]) 0
  = (Go.minInt64,
     [polled "TOKEN" 0; RangeUpdate Go.maxInt64; Sleep (1 * Go.Second)])
  /\ ranged (snd (runBot Go.TrimSpaceASCII (newMonitor cfgHost)
                    [inbox [silent Go.maxInt64]; inbox [silent Go.maxInt64]]))
     = [Go.maxInt64; Go.maxInt64].
Proof. split; vm_compute; reflexivity. Qed.

(** Below -9223372036 seconds the product with [time.Second] leaves the
    range of [int64] and may come out positive: [main] then ticks. *)
Example main_interval_wraps_negative :
  match snd (main ["network-monitor"]
               (oneFile "config.json"
                  {| Target := "example.org"; BotToken := "TOKEN";
                     ChatID := "42"; PingInterval := - 9223372037 |})
               (world true 0 true)) with
  | Ticking _ d => d = 9223372036709551616
  | _ => False
  end.
Proof. vm_compute. reflexivity. Qed.
